(** * Personal-Tracker: the record store of [webtracker.py]

    A shallow embedding of the data classes [Expense] and [Income], of
    [DataManager] (the JSON persistence shim) and of [ExpenseTracker] (the
    in-memory store with its reports), followed by the properties the
    specification states about them.

    Conventions of the embedding:
    - a Python [float] is a primitive binary64 float of Rocq;
    - a Python [str] is a [string]; [strip] and [capitalize] are modelled on
      ASCII text (bytes above 127 are left as they are);
    - a [dict] keyed by category is a [gmap string _];
    - [datetime.date.today()] reads a clock that every operation receives as
      an explicit argument;
    - the file [expenses.json] is a [Disk]; [json.dump] and [json.load] belong
      to Python's library and are parameters of the development. *)

From Stdlib Require Import Floats ZArith NArith Ascii String.
From stdpp Require Import base option list sorting strings gmap fin_maps.

Set Warnings "-register-all".
Local Open Scope string_scope.

(** ** Text: [str.strip], [str.capitalize], slices and [str.startswith] *)

Module Str.

(** [str.isspace] on a one-character ASCII string: TAB, LF, VT, FF, CR, the
    four separators FS, GS, RS, US, and the space. *)
Definition isspace (c : ascii) : bool :=
  let n := N_of_ascii c in
  ((9 <=? n)%N && (n <=? 13)%N) || ((28 <=? n)%N && (n <=? 32)%N).

Fixpoint lstrip (s : string) : string :=
  match s with
  | String c s' => if isspace c then lstrip s' else s
  | EmptyString => EmptyString
  end.

Definition rstrip (s : string) : string := String.rev (lstrip (String.rev s)).

(** [s.strip()] *)
Definition strip (s : string) : string := rstrip (lstrip s).

Definition upper (c : ascii) : ascii :=
  let n := N_of_ascii c in
  if ((97 <=? n)%N && (n <=? 122)%N) then ascii_of_N (n - 32) else c.

Definition lower (c : ascii) : ascii :=
  let n := N_of_ascii c in
  if ((65 <=? n)%N && (n <=? 90)%N) then ascii_of_N (n + 32) else c.

Fixpoint lower_all (s : string) : string :=
  match s with
  | String c s' => String (lower c) (lower_all s')
  | EmptyString => EmptyString
  end.

(** [s.capitalize()]: first character upper-cased, the rest lower-cased. *)
Definition capitalize (s : string) : string :=
  match s with
  | String c s' => String (upper c) (lower_all s')
  | EmptyString => EmptyString
  end.

(** [s[:n]] *)
Definition slice_to (n : nat) (s : string) : string := String.substring 0 n s.

(** [s.startswith(p)] *)
Definition startswith (s p : string) : bool := String.prefix p s.

End Str.

(** The normalisation every write path applies to a category or a source:
    [x.strip().capitalize()]. *)
Definition normalize (s : string) : string := Str.capitalize (Str.strip s).

(** ** Amounts: binary64 arithmetic and the [:,.2f] format *)

Module Money.

Definition zero : float := 0%float.

(** [x > y], [x == 0] as Python evaluates them on floats. *)
Definition gt (x y : float) : bool := PrimFloat.ltb y x.
Definition is_zero (x : float) : bool := PrimFloat.eqb x zero.

(** [sum(xs)]: left to right from the start value 0. (CPython 3.12 and
    later compensate the rounding error of long float sums; the sum of no,
    one or two floats is the same either way.) *)
Definition sum (xs : list float) : float := fold_left PrimFloat.add xs zero.

Definition digit (n : N) : ascii := ascii_of_N (48 + n mod 10).

(** Decimal digits of [n], least significant first; [fuel] bounds the
    number of digits. *)
Fixpoint rev_digits (fuel : nat) (n : N) : string :=
  match fuel with
  | O => EmptyString
  | S fuel' =>
      if (n <? 10)%N then String (digit n) EmptyString
      else String (digit n) (rev_digits fuel' (n / 10))
  end.

(** The thousands separator of the [,] format option, on reversed digits. *)
Fixpoint group3 (s : string) : string :=
  match s with
  | String a (String b (String c (String d _ as rest))) =>
      String a (String b (String c (String "," (group3 rest))))
  | _ => s
  end.

(** [str(n)] *)
Definition decimal (n : N) : string :=
  String.rev (rev_digits (S (N.to_nat (N.log2 n))) n).

Definition grouped (n : N) : string :=
  String.rev (group3 (rev_digits (S (N.to_nat (N.log2 n))) n)).

(** The value [m * 2^e * 100] rounded to the nearest integer, ties to
    even: the number of hundredths that two-decimal formatting prints. *)
Definition hundredths (m : positive) (e : Z) : N :=
  let n := (100 * Npos m)%N in
  match e with
  | Zneg p =>
      let d := N.shiftl 1 (Npos p) in
      let q := (n / d)%N in
      let r := (n mod d)%N in
      match (2 * r ?= d)%N with
      | Lt => q
      | Gt => (q + 1)%N
      | Eq => if N.even q then q else (q + 1)%N
      end
  | _ => N.shiftl n (Z.to_N e)
  end.

Definition sign (s : bool) : string := if s then "-" else "".

Definition fixed2 (h : N) : string :=
  grouped (h / 100)
    ++ String "." (String (digit (h mod 100 / 10)) (String (digit h) EmptyString)).

(** [f"{x:,.2f}"] *)
Definition format (x : float) : string :=
  match Prim2SF x with
  | S754_nan => "nan"
  | S754_infinity s => sign s ++ "inf"
  | S754_zero s => sign s ++ "0.00"
  | S754_finite s m e => sign s ++ fixed2 (hundredths m e)
  end.

End Money.

(** ** The wall clock *)

Module datetime.

(** A [datetime.date]; [date.today()] is the value the operations receive. *)
Record date := Date { year : nat; month : nat; day : nat }.

Definition two (n : nat) : string :=
  String (Money.digit (N.of_nat (n / 10))) (String (Money.digit (N.of_nat n)) EmptyString).

(** [d.strftime('%Y')], for the four-digit years (1000 to 9999). *)
Definition strftime_Y (d : date) : string :=
  two (year d / 100) ++ two (year d).

(** [d.strftime('%Y-%m')] *)
Definition strftime_Ym (d : date) : string :=
  strftime_Y d ++ String "-" (two (month d)).

End datetime.

(** ** JSON documents and the exceptions the loader meets *)

Inductive json :=
| JNull
| JBool (b : bool)
| JNumber (x : float)
| JString (s : string)
| JArray (l : list json)
| JObject (m : gmap string json).

Inductive exn :=
| FileNotFoundError
| JSONDecodeError
| KeyError
| TypeError
| AttributeError
| IndexError.

Inductive result (A : Type) :=
| Ok (a : A)
| Raise (e : exn).
Arguments Ok {A} a.
Arguments Raise {A} e.

#[global] Instance result_ret : MRet result := λ A a, Ok a.
#[global] Instance result_bind : MBind result :=
  λ A B f r, match r with Ok a => f a | Raise e => Raise e end.

Module Json.

(** [d[k]] *)
Definition subscript (d : json) (k : string) : result json :=
  match d with
  | JObject m => match m !! k with Some v => Ok v | None => Raise KeyError end
  | _ => Raise TypeError
  end.

(** [d.get(k, dflt)] *)
Definition get (d : json) (k : string) (dflt : json) : result json :=
  match d with
  | JObject m => Ok (default dflt (m !! k))
  | _ => Raise AttributeError
  end.

(** The decoded values are typed here: a field that does not hold the kind
    of value the data classes declare is reported as a [TypeError] when it
    is read (Python would keep the value and fail at its first use). *)
Definition as_number (v : json) : result float :=
  match v with JNumber x => Ok x | _ => Raise TypeError end.

Definition as_string (v : json) : result string :=
  match v with JString s => Ok s | _ => Raise TypeError end.

Definition as_list (v : json) : result (list json) :=
  match v with JArray l => Ok l | _ => Raise TypeError end.

Definition number_of (v : json) : option float :=
  match v with JNumber x => Some x | _ => None end.

Definition as_budgets (v : json) : result (gmap string float) :=
  match v with
  | JObject m =>
      if bool_decide (map_Forall (λ _ x, is_Some (number_of x)) m)
      then Ok (omap number_of m) else Raise TypeError
  | _ => Raise TypeError
  end.

End Json.

(** The part of Python's [json] module the program calls: [json.dump] to the
    text of a file, and [json.load], which raises [JSONDecodeError] ([None])
    on text that is not JSON. *)
Class JsonModule := {
  text : Type;
  json_dump : json → text;
  json_load : text → option json
}.

(** ** 1. Data classes *)

Module Expense.

Record t := mk { amount : float; category : string; date : string; tag : string }.

Definition to_dict (self : t) : json :=
  JObject {[ "amount" := JNumber (amount self);
             "category" := JString (category self);
             "date" := JString (date self);
             "tag" := JString (tag self) ]}.

Definition from_dict (data : json) : result t :=
  a ← Json.subscript data "amount" ≫= Json.as_number;
  c ← Json.subscript data "category" ≫= Json.as_string;
  d ← Json.subscript data "date" ≫= Json.as_string;
  g ← Json.get data "tag" (JString "") ≫= Json.as_string;
  mret (mk a c d g).

End Expense.

Module Income.

Record t := mk { amount : float; source : string; date : string }.

Definition to_dict (self : t) : json :=
  JObject {[ "amount" := JNumber (amount self);
             "source" := JString (source self);
             "date" := JString (date self) ]}.

Definition from_dict (data : json) : result t :=
  a ← Json.subscript data "amount" ≫= Json.as_number;
  s ← Json.subscript data "source" ≫= Json.as_string;
  d ← Json.subscript data "date" ≫= Json.as_string;
  mret (mk a s d).

End Income.

(** Both kinds of record answer [r.date]. *)
Class Dated (A : Type) := date_of : A → string.
#[global] Instance expense_dated : Dated Expense.t := Expense.date.
#[global] Instance income_dated : Dated Income.t := Income.date.

(** ** 2. Data persistence ([DataManager]) *)

(** The file [expenses.json]: its text when it exists, and whether the
    process may write it. *)
Record Disk `{JsonModule} := { contents : option text; writable : bool }.

(** The dictionary [load_data] returns. *)
Record Data := {
  data_expenses : list Expense.t;
  data_budgets : gmap string float;
  data_incomes : list Income.t
}.

Module DataManager.
Section with_json.
Context `{JsonModule}.

(** [open(FILEPATH, 'r')] followed by [json.load(f)] *)
Definition read_document (disk : Disk) : result json :=
  match contents disk with
  | None => Raise FileNotFoundError
  | Some txt =>
      match json_load txt with
      | Some doc => Ok doc
      | None => Raise JSONDecodeError
      end
  end.

(** [[Expense.from_dict(d) for d in loaded_data.get('expenses', [])]] *)
Definition expenses_of (loaded_data : json) : result (list Expense.t) :=
  expense_dicts ← Json.get loaded_data "expenses" (JArray []) ≫= Json.as_list;
  mapM Expense.from_dict expense_dicts.

Definition incomes_of (loaded_data : json) : result (list Income.t) :=
  income_dicts ← Json.get loaded_data "incomes" (JArray []) ≫= Json.as_list;
  mapM Income.from_dict income_dicts.

Definition budgets_of (loaded_data : json) : result (gmap string float) :=
  Json.get loaded_data "budgets" (JObject ∅) ≫= Json.as_budgets.

(** [data] is filled field by field, and whatever was filled when an
    exception arrives is what the handler returns. *)
Definition load_data (disk : Disk) : Data :=
  let data := {| data_expenses := []; data_budgets := ∅; data_incomes := [] |} in
  match read_document disk with
  | Raise _ => data
  | Ok loaded_data =>
      match expenses_of loaded_data with
      | Raise _ => data
      | Ok es =>
          let data := {| data_expenses := es; data_budgets := data_budgets data;
                         data_incomes := data_incomes data |} in
          match incomes_of loaded_data with
          | Raise _ => data
          | Ok ins =>
              let data := {| data_expenses := data_expenses data;
                             data_budgets := data_budgets data;
                             data_incomes := ins |} in
              match budgets_of loaded_data with
              | Raise _ => data
              | Ok bs =>
                  {| data_expenses := data_expenses data; data_budgets := bs;
                     data_incomes := data_incomes data |}
              end
          end
      end
  end.

Definition data_to_save (expenses : list Expense.t) (budgets : gmap string float)
    (incomes : list Income.t) : json :=
  JObject {[ "expenses" := JArray (Expense.to_dict <$> expenses);
             "budgets" := JObject (JNumber <$> budgets);
             "incomes" := JArray (Income.to_dict <$> incomes) ]}.

(** A failed write is swallowed ([except Exception: pass]) and leaves the
    file as it was. *)
Definition save_data (expenses : list Expense.t) (budgets : gmap string float)
    (incomes : list Income.t) (disk : Disk) : Disk :=
  if writable disk
  then {| contents := Some (json_dump (data_to_save expenses budgets incomes));
          writable := true |}
  else disk.

End with_json.
End DataManager.

(** ** 3. Core logic ([ExpenseTracker]) *)

Record ExpenseTracker := {
  expenses : list Expense.t;
  budgets : gmap string float;
  incomes : list Income.t
}.

(** One line of the budget report. *)
Record ReportRow := {
  row_category : string;
  row_budget : float;
  row_spent : float;
  row_remaining : float;
  row_status : string;
  row_status_class : string
}.

(** [l.pop(i)] for an index that is not negative. *)
Definition pop {A} (i : nat) (l : list A) : result (A * list A) :=
  match l !! i with
  | Some x => Ok (x, delete i l)
  | None => Raise IndexError
  end.

(** [sorted(l, key=key, reverse=True)] on text keys: descending, and stable
    (records with equal keys keep the order they had). *)
Fixpoint insert_desc {A} (key : A → string) (x : A) (l : list A) : list A :=
  match l with
  | [] => [x]
  | y :: l' =>
      if String.ltb (key x) (key y) then y :: insert_desc key x l' else x :: l
  end.

Definition sorted_reverse {A} (key : A → string) (l : list A) : list A :=
  foldr (insert_desc key) [] l.

(** *** Reporting and viewing: functions of the store and of the clock *)

Section reports.
Variable today : datetime.date.

Definition _filter_transactions {A} `{Dated A} (records : list A)
    (filter_type : string) : list A :=
  if String.eqb filter_type "all" then records
  else
    let current_date := today in
    if String.eqb filter_type "month" then
      let filter_str := datetime.strftime_Ym current_date in
      filter (λ r, Str.startswith (date_of r) filter_str) records
    else if String.eqb filter_type "year" then
      let filter_str := datetime.strftime_Y current_date in
      filter (λ r, Str.startswith (date_of r) filter_str) records
    else records.

(** One turn of the loop of [_get_category_spending]; [monthly_spending]
    is a [defaultdict(float)], so a missing category reads as 0.0. *)
Definition spend (current_month : string) (monthly_spending : gmap string float)
    (exp : Expense.t) : gmap string float :=
  if String.eqb (Str.slice_to 7 (Expense.date exp)) current_month
  then <[Expense.category exp :=
           PrimFloat.add (default Money.zero (monthly_spending !! Expense.category exp))
                         (Expense.amount exp)]> monthly_spending
  else monthly_spending.

Definition _get_category_spending (self : ExpenseTracker) : gmap string float :=
  let current_month := datetime.strftime_Ym today in
  fold_left (spend current_month) (expenses self) ∅.

Definition calculate_net_savings (self : ExpenseTracker) : float * float * float :=
  let current_month := datetime.strftime_Ym today in
  let total_income :=
    Money.sum (Income.amount <$>
      filter (λ inc, Str.slice_to 7 (Income.date inc) = current_month) (incomes self)) in
  let total_expense :=
    Money.sum (Expense.amount <$>
      filter (λ exp, Str.slice_to 7 (Expense.date exp) = current_month) (expenses self)) in
  let net_savings := PrimFloat.sub total_income total_expense in
  (total_income, total_expense, net_savings).

Definition report_row (self : ExpenseTracker) (spending : gmap string float)
    (category : string) : ReportRow :=
  let budget := default Money.zero (budgets self !! category) in
  let spent := default Money.zero (spending !! category) in
  let remaining := PrimFloat.sub budget spent in
  let '(status, status_class) :=
    if Money.gt spent budget && Money.gt budget Money.zero
    then ("OVER BUDGET", "negative")
    else if Money.is_zero budget then ("NO BUDGET SET", "")
    else ("On Track", "positive") in
  {| row_category := category; row_budget := budget; row_spent := spent;
     row_remaining := remaining; row_status := status;
     row_status_class := status_class |}.

Definition get_budget_report (self : ExpenseTracker) : list ReportRow :=
  let spending := _get_category_spending self in
  let categories :=
    merge_sort String.le
      (elements (dom (budgets self) ∪ dom spending : gset string)) in
  report_row self spending <$> categories.

End reports.

Definition get_expenses_summary (self : ExpenseTracker)
    : list (nat * Expense.t) * float :=
  let indexed_expenses_with_original_index := imap (λ i e, (i, e)) (expenses self) in
  let sorted_expenses :=
    sorted_reverse (λ item, Expense.date item.2) indexed_expenses_with_original_index in
  let total_spent := Money.sum (Expense.amount <$> expenses self) in
  (sorted_expenses, total_spent).

Definition get_income_summary (self : ExpenseTracker)
    : list (nat * Income.t) * float :=
  let indexed_incomes_with_original_index := imap (λ i e, (i, e)) (incomes self) in
  let sorted_incomes :=
    sorted_reverse (λ item, Income.date item.2) indexed_incomes_with_original_index in
  let total_income := Money.sum (Income.amount <$> incomes self) in
  (sorted_incomes, total_income).

(** One entry of the combined log. *)
Record LogEntry := {
  log_date : string;
  log_amount : float;
  log_description : string;
  log_type : string;
  log_amount_class : string
}.

Definition expense_for_log (exp : Expense.t) : LogEntry :=
  {| log_date := Expense.date exp;
     log_amount := Expense.amount exp;
     log_description :=
       match Expense.tag exp with
       | EmptyString => Expense.category exp
       | _ => Expense.category exp ++ ": " ++ Expense.tag exp
       end;
     log_type := "Expense";
     log_amount_class := "negative" |}.

Definition income_for_log (inc : Income.t) : LogEntry :=
  {| log_date := Income.date inc;
     log_amount := Income.amount inc;
     log_description := Income.source inc;
     log_type := "Income";
     log_amount_class := "positive" |}.

Definition get_combined_logs (self : ExpenseTracker) : list LogEntry :=
  let expenses_for_log := expense_for_log <$> expenses self in
  let incomes_for_log := income_for_log <$> incomes self in
  let combined_logs := (expenses_for_log ++ incomes_for_log)%list in
  sorted_reverse log_date combined_logs.

(** The two parallel lists a chart is drawn from. *)
Record ChartData := { labels : list string; data : list float }.

(** [d[k] += a] on a [defaultdict(float)] whose keys are later listed in the
    order they were first stored. *)
Fixpoint defaultdict_add (k : string) (a : float) (d : list (string * float))
    : list (string * float) :=
  match d with
  | [] => [(k, PrimFloat.add Money.zero a)]
  | (k', v) :: d' =>
      if String.eqb k' k then (k', PrimFloat.add v a) :: d'
      else (k', v) :: defaultdict_add k a d'
  end.

Section charts.
Variable today : datetime.date.

Definition get_category_chart_data (self : ExpenseTracker) (time_filter : string)
    : ChartData :=
  let filtered_expenses := _filter_transactions today (expenses self) time_filter in
  let spending_map :=
    fold_left (λ d exp, defaultdict_add (Expense.category exp) (Expense.amount exp) d)
      filtered_expenses [] in
  {| labels := spending_map.*1; data := spending_map.*2 |}.

(** [datetime.strptime(month_key, '%Y-%m').strftime('%b %Y')], which belongs
    to Python's library; [None] stands for the [ValueError] of a key that
    is not a year and a month. *)
Variable month_label : string → option string.

(** One turn of the grouping loop of [get_monthly_trend_data]. *)
Definition spend_in_month (monthly_spending : gmap string float) (exp : Expense.t)
    : gmap string float :=
  let monthly_key := Str.slice_to 7 (Expense.date exp) in
  <[monthly_key :=
      PrimFloat.add (default Money.zero (monthly_spending !! monthly_key))
                    (Expense.amount exp)]> monthly_spending.

Definition get_monthly_trend_data (self : ExpenseTracker) (time_filter : string)
    : ChartData :=
  let filtered_expenses := _filter_transactions today (expenses self) time_filter in
  let monthly_spending := fold_left spend_in_month filtered_expenses ∅ in
  let sorted_months :=
    merge_sort String.le (elements (dom monthly_spending : gset string)) in
  {| labels := (λ month_key, default month_key (month_label month_key)) <$> sorted_months;
     data := (λ month_key, default Money.zero (monthly_spending !! month_key))
               <$> sorted_months |}.

End charts.

(** *** Expense, income and budget management: the store and its file *)

Section management.
Context `{JsonModule}.

(** The tracker object together with the file its data manager writes. *)
Record World := { tracker : ExpenseTracker; disk : Disk }.

(** A method that may change both. *)
Definition M (A : Type) : Type := World → A * World.

#[global] Instance M_ret : MRet M := λ A a w, (a, w).
#[global] Instance M_bind : MBind M :=
  λ A B f m w, let '(a, w') := m w in f a w'.

Definition get_self : M ExpenseTracker := λ w, (tracker w, w).
Definition put_self (self : ExpenseTracker) : M unit :=
  λ w, (tt, {| tracker := self; disk := disk w |}).

Definition __init__ (d : Disk) : World :=
  let loaded_data := DataManager.load_data d in
  {| tracker := {| expenses := data_expenses loaded_data;
                   budgets := data_budgets loaded_data;
                   incomes := data_incomes loaded_data |};
     disk := d |}.

Definition _save : M unit := λ w,
  let self := tracker w in
  (tt, {| tracker := self;
          disk := DataManager.save_data (expenses self) (budgets self)
                    (incomes self) (disk w) |}).

Definition budget_alert (today : datetime.date) (self : ExpenseTracker)
    (category_cleaned : string) : string :=
  match budgets self !! category_cleaned with
  | Some budget_limit =>
      let monthly_spending := _get_category_spending today self in
      let current_spent := default Money.zero (monthly_spending !! category_cleaned) in
      if Money.gt current_spent budget_limit then
        let over_amount := PrimFloat.sub current_spent budget_limit in
        "🚨 BUDGET ALERT: Spending in " ++ category_cleaned
          ++ " exceeds budget of $" ++ Money.format budget_limit
          ++ " by $" ++ Money.format over_amount ++ "!"
      else ""
  | None => ""
  end.

(** Nothing in the body raises on typed arguments, so the handler that
    returns [False, "Failed to add expense: ..."] is never entered. *)
Definition add_expense (today : datetime.date) (amount : float)
    (category date_str tag : string) : M (bool * string) :=
  let category_cleaned := normalize category in
  let tag_cleaned := Str.strip tag in
  let expense := Expense.mk amount category_cleaned date_str tag_cleaned in
  self ← get_self;
  put_self {| expenses := expenses self ++ [expense]; budgets := budgets self;
              incomes := incomes self |};;
  _save;;
  self ← get_self;
  let alert_message := budget_alert today self category_cleaned in
  mret (true, "Expense added successfully."
                ++ match alert_message with
                   | EmptyString => ""
                   | _ => " " ++ alert_message
                   end).

Definition add_income (amount : float) (source date_str : string)
    : M (bool * string) :=
  let source_cleaned := normalize source in
  let income := Income.mk amount source_cleaned date_str in
  self ← get_self;
  put_self {| expenses := expenses self; budgets := budgets self;
              incomes := incomes self ++ [income] |};;
  _save;;
  mret (true, "Income added successfully from " ++ source_cleaned ++ ".").

Definition set_budget (category : string) (amount : float) : M (bool * string) :=
  let category_cleaned := normalize category in
  self ← get_self;
  put_self {| expenses := expenses self;
              budgets := <[category_cleaned := amount]> (budgets self);
              incomes := incomes self |};;
  _save;;
  mret (true, "Budget set: Monthly limit for " ++ category_cleaned
                ++ " is now $" ++ Money.format amount).

Definition remove_expense (index : Z) : M (bool * string) :=
  self ← get_self;
  if ((0 <=? index)%Z && (index <? Z.of_nat (length (expenses self)))%Z) then
    match pop (Z.to_nat index) (expenses self) with
    | Ok (removed_expense, rest) =>
        put_self {| expenses := rest; budgets := budgets self;
                    incomes := incomes self |};;
        _save;;
        mret (true, "Expense on " ++ Expense.date removed_expense
                      ++ " for $" ++ Money.format (Expense.amount removed_expense)
                      ++ " (" ++ Expense.category removed_expense
                      ++ ") removed successfully.")
    | Raise _ => mret (false, "Failed to remove expense: pop index out of range")
    end
  else mret (false, "Invalid expense index.").

Definition remove_income (index : Z) : M (bool * string) :=
  self ← get_self;
  if ((0 <=? index)%Z && (index <? Z.of_nat (length (incomes self)))%Z) then
    match pop (Z.to_nat index) (incomes self) with
    | Ok (removed_income, rest) =>
        put_self {| expenses := expenses self; budgets := budgets self;
                    incomes := rest |};;
        _save;;
        mret (true, "Income on " ++ Income.date removed_income
                      ++ " from " ++ Income.source removed_income
                      ++ " ($" ++ Money.format (Income.amount removed_income)
                      ++ ") removed successfully.")
    | Raise _ => mret (false, "Failed to remove income: pop index out of range")
    end
  else mret (false, "Invalid income index.").

Definition delete_budget (category_name : string) : M (bool * string) :=
  let category_cleaned := normalize category_name in
  self ← get_self;
  match budgets self !! category_cleaned with
  | Some _ =>
      put_self {| expenses := expenses self;
                  budgets := delete category_cleaned (budgets self);
                  incomes := incomes self |};;
      _save;;
      mret (true, "Budget limit for '" ++ category_cleaned
                    ++ "' removed successfully.")
  | None =>
      mret (false, "No budget found for category '" ++ category_cleaned ++ "'.")
  end.

Definition delete_category (category_name : string) : M (bool * string) :=
  let category_cleaned := normalize category_name in
  self ← get_self;
  let original_count := length (expenses self) in
  let kept := filter (λ exp, Expense.category exp ≠ category_cleaned) (expenses self) in
  let deleted_count := (Z.of_nat original_count - Z.of_nat (length kept))%Z in
  let budget_deleted := bool_decide (is_Some (budgets self !! category_cleaned)) in
  put_self {| expenses := kept;
              budgets := if budget_deleted
                         then delete category_cleaned (budgets self)
                         else budgets self;
              incomes := incomes self |};;
  _save;;
  let message :=
    "Category '" ++ category_cleaned ++ "' deleted. Removed "
      ++ Money.decimal (Z.to_N deleted_count) ++ " expense(s)."
      ++ (if budget_deleted then " Budget limit also removed." else "") in
  if (deleted_count =? 0)%Z && negb budget_deleted
  then mret (false, "Category '" ++ category_cleaned
                      ++ "' not found in expenses or budgets.")
  else mret (true, message).

End management.

Arguments World {_}.
Arguments M {_} A.

(** ** A concrete setting for worked instances *)

Module Scenario.

(** A [json] module in which the text of a file is either the document it
    encodes or text that does not parse. *)
Definition parsed_text : JsonModule :=
  {| text := option json; json_dump := Some; json_load := id |}.
#[local] Existing Instance parsed_text.

Definition august : datetime.date := datetime.Date 2025 8 15.
Definition november : datetime.date := datetime.Date 2026 11 3.

Definition no_file : Disk := @Build_Disk parsed_text None true.
Definition garbled_file : Disk := @Build_Disk parsed_text (Some None) true.

Definition rent : Expense.t := Expense.mk 750 "Rent" "2025-08-01" "".
Definition dining : Expense.t := Expense.mk 55.5 "Food" "2025-08-15" "Dining Out".
Definition salary : Income.t := Income.mk 3000 "Salary" "2025-08-01".

(** A budget of $50 for "Food" and nothing recorded yet. *)
Definition food_budget : World :=
  {| tracker := {| expenses := []; budgets := {[ "Food" := 50%float ]}; incomes := [] |};
     disk := no_file |}.

Definition salary_and_rent : ExpenseTracker :=
  {| expenses := [rent]; budgets := ∅; incomes := [salary] |}.

(** Data like the sample the entry point records (there the income is dated
    the first day of the current month). *)
Definition sample : World :=
  {| tracker := {| expenses := [rent; dining]; budgets := {[ "Food" := 150%float ]};
                   incomes := [salary] |};
     disk := no_file |}.

End Scenario.

(** ** Vocabulary of the statements *)

(** A date text lies in the month of the clock: [d[:7] == today.strftime('%Y-%m')]. *)
Definition this_month (today : datetime.date) (d : string) : Prop :=
  Str.slice_to 7 d = datetime.strftime_Ym today.

#[global] Instance this_month_dec today d : Decision (this_month today d).
Proof. unfold this_month. apply _. Defined.

(** The amounts, in the order of the store, of the expenses of category [c]
    dated in the month of the clock; their sum is the month-to-date spend. *)
Definition month_amounts (today : datetime.date) (c : string)
    (es : list Expense.t) : list float :=
  Expense.amount <$>
    filter (λ e, this_month today (Expense.date e) ∧ Expense.category e = c) es.

Definition month_to_date (today : datetime.date) (c : string)
    (es : list Expense.t) : float :=
  Money.sum (month_amounts today c es).

(** * Properties *)

(** ** Text and floats *)

Lemma strftime_Ym_length d : String.length (datetime.strftime_Ym d) = 7.
Proof. reflexivity. Qed.

Lemma this_month_startswith today d :
  this_month today d ↔ Str.startswith d (datetime.strftime_Ym today) = true.
Proof.
  unfold this_month, Str.startswith, Str.slice_to.
  rewrite String.prefix_correct, strftime_Ym_length. reflexivity.
Qed.

Lemma is_zero_not_positive b :
  Money.is_zero b = true → Money.gt b Money.zero = false.
Proof.
  unfold Money.is_zero, Money.gt, Money.zero.
  rewrite FloatAxioms.eqb_spec, FloatAxioms.ltb_spec.
  replace (Prim2SF 0%float) with (S754_zero false) by reflexivity.
  destruct (Prim2SF b) as [s|s| |s m e]; try destruct s; cbn; congruence.
Qed.

(** ** The monthly spending map *)

Lemma fold_spend_lookup today es acc c :
  fold_left (spend (datetime.strftime_Ym today)) es acc !! c =
    match month_amounts today c es with
    | [] => acc !! c
    | xs => Some (fold_left PrimFloat.add xs (default Money.zero (acc !! c)))
    end.
Proof.
  unfold month_amounts.
  revert acc. induction es as [|e es IH]; intros acc; [done|].
  cbn [fold_left]. rewrite IH. clear IH. unfold spend.
  destruct (String.eqb_spec (Str.slice_to 7 (Expense.date e))
              (datetime.strftime_Ym today)) as [Hm|Hm].
  - destruct (decide (Expense.category e = c)) as [Hc|Hc].
    + rewrite filter_cons_True by done. subst c.
      rewrite lookup_insert_eq. cbn.
      by destruct (Expense.amount <$> filter _ es).
    + rewrite filter_cons_False by (by intros [_ ?]).
      by rewrite lookup_insert_ne.
  - by rewrite filter_cons_False by (by intros [? _]).
Qed.

Lemma get_category_spending_lookup today self c :
  _get_category_spending today self !! c =
    match month_amounts today c (expenses self) with
    | [] => None
    | xs => Some (Money.sum xs)
    end.
Proof.
  unfold _get_category_spending. rewrite fold_spend_lookup.
  by rewrite lookup_empty.
Qed.

Lemma get_category_spending_get today self c :
  default Money.zero (_get_category_spending today self !! c)
    = month_to_date today c (expenses self).
Proof.
  rewrite get_category_spending_lookup. unfold month_to_date.
  by destruct (month_amounts today c (expenses self)).
Qed.

Lemma get_category_spending_dom today self c :
  is_Some (_get_category_spending today self !! c) ↔
  ∃ e, e ∈ expenses self ∧ this_month today (Expense.date e) ∧ Expense.category e = c.
Proof.
  rewrite get_category_spending_lookup. unfold month_amounts.
  destruct (filter _ (expenses self)) as [|e l] eqn:Hf; cbn.
  - split; [by intros [? ?]|]. intros (e & He & Hm & Hc).
    exfalso. eapply (filter_nil_not_elem_of _ _ e); [exact Hf| |exact He]. done.
  - split; [intros _|by eauto].
    assert (e ∈ filter (λ e, this_month today (Expense.date e) ∧ Expense.category e = c)
                  (expenses self)) as He by (rewrite Hf; left).
    apply list_elem_of_filter in He as [[? ?] ?]. eauto.
Qed.

(** ** The budget report *)

Lemma report_row_fields self spending c :
  let row := report_row self spending c in
  let budget := default Money.zero (budgets self !! c) in
  let spent := default Money.zero (spending !! c) in
  row_category row = c ∧ row_budget row = budget ∧ row_spent row = spent
  ∧ row_remaining row = PrimFloat.sub budget spent
  ∧ row_status row =
      if Money.gt spent budget && Money.gt budget Money.zero then "OVER BUDGET"
      else if Money.is_zero budget then "NO BUDGET SET" else "On Track".
Proof.
  unfold report_row. cbn zeta.
  destruct (Money.gt _ _ && Money.gt _ _); [done|].
  by destruct (Money.is_zero _).
Qed.

Lemma report_categories today self :
  row_category <$> get_budget_report today self =
    merge_sort String.le
      (elements (dom (budgets self) ∪ dom (_get_category_spending today self)
                   : gset string)).
Proof.
  unfold get_budget_report. cbn zeta. rewrite <- list_fmap_compose.
  rewrite <- (list_fmap_id (merge_sort _ _)) at 2.
  apply list_fmap_ext. intros i c _. apply report_row_fields.
Qed.

Lemma report_row_status self spending c :
  let row := report_row self spending c in
  let budget := default Money.zero (budgets self !! c) in
  let spent := default Money.zero (spending !! c) in
  let over := Money.gt spent budget = true ∧ Money.gt budget Money.zero = true in
  (row_status row = "OVER BUDGET" ↔ over)
  ∧ (row_status row = "NO BUDGET SET" ↔ Money.is_zero budget = true)
  ∧ (row_status row = "On Track" ↔ ¬ over ∧ Money.is_zero budget = false).
Proof.
  intros row budget spent over. subst row.
  destruct (report_row_fields self spending c) as (_ & _ & _ & _ & ->).
  fold budget spent. subst over.
  pose proof (is_zero_not_positive budget) as Hz.
  destruct (Money.gt spent budget), (Money.gt budget Money.zero),
    (Money.is_zero budget); cbn; (try by specialize (Hz eq_refl)).
  all: clear Hz; intuition congruence.
Qed.

(** C1. [get_budget_report] has exactly one row for each category that has a
    budget or an expense dated in the current month, in ascending order of
    category; in a row, the budget is the configured limit (0 when there is
    none), the spend is the month-to-date spend of the category, the
    remainder is their difference, and the status is "OVER BUDGET" exactly
    when [spent > budget] and [budget > 0], "NO BUDGET SET" exactly when
    [budget == 0], and "On Track" exactly in the remaining case. *)
Theorem get_budget_report_spec (today : datetime.date) (self : ExpenseTracker) :
  let report := get_budget_report today self in
  let budget_of c := default Money.zero (budgets self !! c) in
  let spent_in c := month_to_date today c (expenses self) in
  let over c :=
    Money.gt (spent_in c) (budget_of c) = true
    ∧ Money.gt (budget_of c) Money.zero = true in
  NoDup (row_category <$> report)
  ∧ Sorted String.le (row_category <$> report)
  ∧ (∀ c, c ∈ row_category <$> report ↔
       is_Some (budgets self !! c)
       ∨ ∃ e, e ∈ expenses self ∧ this_month today (Expense.date e)
              ∧ Expense.category e = c)
  ∧ (∀ row, row ∈ report →
       let c := row_category row in
       row_budget row = budget_of c
       ∧ row_spent row = spent_in c
       ∧ row_remaining row = PrimFloat.sub (budget_of c) (spent_in c)
       ∧ (row_status row = "OVER BUDGET" ↔ over c)
       ∧ (row_status row = "NO BUDGET SET" ↔ Money.is_zero (budget_of c) = true)
       ∧ (row_status row = "On Track" ↔
            ¬ over c ∧ Money.is_zero (budget_of c) = false)).
Proof.
  intros report budget_of spent_in over. subst report.
  rewrite report_categories.
  split; [|split; [|split]].
  - rewrite merge_sort_Permutation. apply NoDup_elements.
  - apply Sorted_merge_sort. apply _.
  - intros c.
    rewrite merge_sort_Permutation, elem_of_elements, elem_of_union, !elem_of_dom.
    by rewrite get_category_spending_dom.
  - intros row Hrow c. unfold get_budget_report in Hrow. cbn zeta in Hrow.
    apply list_elem_of_fmap in Hrow as (c' & Hrow & _).
    set (spending := _get_category_spending today self) in *.
    destruct (report_row_fields self spending c') as (Hc & Hb & Hs & Hr & _).
    pose proof (report_row_status self spending c') as Hst.
    cbn zeta in Hst. rewrite <- Hrow in Hc, Hb, Hs, Hr, Hst.
    subst c over spent_in budget_of. cbn beta.
    unfold spending in *. rewrite get_category_spending_get in *.
    rewrite Hc. done.
Qed.

(** ** Filtering by period *)

Lemma filter_startswith {A} `{Dated A} (p : string) (records : list A) :
  let kept := filter (λ r, Str.startswith (date_of r) p) records in
  (∀ r, r ∈ kept ↔ r ∈ records ∧ Str.startswith (date_of r) p = true)
  ∧ sublist kept records.
Proof.
  split; [|apply sublist_filter].
  intros r. rewrite list_elem_of_filter, Is_true_true. tauto.
Qed.

(** C7. [_filter_transactions] returns the records unchanged for the period
    'all'; for 'month' it returns the records whose date text begins with
    today's YYYY-MM, and for 'year' those whose date text begins with
    today's YYYY: in both cases exactly those records, in the order they had
    (the result is the input with the other records struck out). *)
Theorem filter_transactions_periods {A} `{Dated A} (today : datetime.date)
    (records : list A) :
  _filter_transactions today records "all" = records
  ∧ (let kept := _filter_transactions today records "month" in
     kept = filter (λ r, Str.startswith (date_of r) (datetime.strftime_Ym today)) records
     ∧ (∀ r, r ∈ kept ↔
          r ∈ records ∧ Str.startswith (date_of r) (datetime.strftime_Ym today) = true)
     ∧ sublist kept records)
  ∧ (let kept := _filter_transactions today records "year" in
     kept = filter (λ r, Str.startswith (date_of r) (datetime.strftime_Y today)) records
     ∧ (∀ r, r ∈ kept ↔
          r ∈ records ∧ Str.startswith (date_of r) (datetime.strftime_Y today) = true)
     ∧ sublist kept records).
Proof.
  split; [reflexivity|].
  split; (split; [reflexivity|]); apply filter_startswith.
Qed.

(** C10. For a period other than 'all', 'month' and 'year',
    [_filter_transactions] returns the records it was given, unchanged; it
    is a total function, so no period makes it fail. *)
Theorem filter_transactions_other {A} `{Dated A} (today : datetime.date)
    (records : list A) (filter_type : string) :
  filter_type ≠ "all" → filter_type ≠ "month" → filter_type ≠ "year" →
  _filter_transactions today records filter_type = records.
Proof.
  intros Hall Hmonth Hyear. unfold _filter_transactions.
  apply String.eqb_neq in Hall, Hmonth, Hyear.
  by rewrite Hall, Hmonth, Hyear.
Qed.

(** ** Net savings *)

Lemma filter_this_month {A} `{Dated A} today (records : list A) :
  filter (λ r, Str.slice_to 7 (date_of r) = datetime.strftime_Ym today) records
    = _filter_transactions today records "month".
Proof.
  unfold _filter_transactions. cbn.
  apply list_filter_iff. intros r.
  rewrite Is_true_true. apply this_month_startswith.
Qed.

(** C3. [calculate_net_savings] returns the sum of the amounts of the incomes
    of the current month, the sum of the amounts of the expenses of the
    current month, and the first minus the second. With the one income
    (3000, "Salary", "2025-08-01") and the one expense
    (750, "Rent", "2025-08-01"), both in the month of the clock, it returns
    (3000, 750, 2250). *)
Theorem calculate_net_savings_spec (today : datetime.date) (self : ExpenseTracker) :
  let total_income :=
    Money.sum (Income.amount <$> _filter_transactions today (incomes self) "month") in
  let total_expense :=
    Money.sum (Expense.amount <$> _filter_transactions today (expenses self) "month") in
  calculate_net_savings today self
    = (total_income, total_expense, PrimFloat.sub total_income total_expense)
  ∧ (datetime.strftime_Ym today = "2025-08" →
     incomes self = [Income.mk 3000 "Salary" "2025-08-01"] →
     (∃ tag, expenses self = [Expense.mk 750 "Rent" "2025-08-01" tag]) →
     calculate_net_savings today self = (3000, 750, 2250)%float).
Proof.
  split.
  - unfold calculate_net_savings. cbn zeta.
    by rewrite <- !filter_this_month.
  - intros Hm Hi [tag He]. unfold calculate_net_savings.
    rewrite Hm, Hi, He. reflexivity.
Qed.

(** ** Managing the store *)

Lemma filter_length_all {A} (P : A → Prop) `{!∀ x, Decision (P x)} (l : list A) :
  length (filter P l) = length l ↔ Forall P l.
Proof.
  induction l as [|x l IH]; [by split|].
  rewrite filter_cons, Forall_cons. destruct (decide (P x)) as [HP|HP]; cbn.
  - rewrite <- IH. split; [intros [= ?]; done|intros [_ ->]; done].
  - pose proof (length_filter P l). split; [lia|tauto].
Qed.

Lemma filter_all {A} (P : A → Prop) `{!∀ x, Decision (P x)} (l : list A) :
  Forall P l → filter P l = l.
Proof.
  induction 1 as [|x l HP _ IH]; [done|].
  by rewrite filter_cons_True, IH.
Qed.

Lemma insert_desc_Permutation {A} (key : A → string) x (l : list A) :
  insert_desc key x l ≡ₚ x :: l.
Proof.
  induction l as [|y l IH]; [done|]. cbn.
  destruct (String.ltb _ _); [|done].
  rewrite IH. apply Permutation_swap.
Qed.

Lemma sorted_reverse_Permutation {A} (key : A → string) (l : list A) :
  sorted_reverse key l ≡ₚ l.
Proof.
  induction l as [|x l IH]; [done|]. cbn.
  by rewrite insert_desc_Permutation, IH.
Qed.

Lemma get_expenses_summary_index self i e :
  (i, e) ∈ (get_expenses_summary self).1 ↔ expenses self !! i = Some e.
Proof.
  unfold get_expenses_summary. cbn.
  rewrite sorted_reverse_Permutation, elem_of_lookup_imap.
  split; [by intros (? & ? & [= -> ->] & ?)|by eauto].
Qed.

Lemma month_amounts_app today c es1 es2 :
  month_amounts today c (es1 ++ es2)
    = (month_amounts today c es1 ++ month_amounts today c es2)%list.
Proof. unfold month_amounts. by rewrite filter_app, fmap_app. Qed.

Section management_facts.
Context `{JsonModule}.

Lemma add_expense_run today amount category date_str tag (w : World) :
  let c := normalize category in
  let self' := {| expenses := (expenses (tracker w)
                                ++ [Expense.mk amount c date_str (Str.strip tag)])%list;
                  budgets := budgets (tracker w);
                  incomes := incomes (tracker w) |} in
  add_expense today amount category date_str tag w =
    ((true, "Expense added successfully."
              ++ match budget_alert today self' c with
                 | EmptyString => ""
                 | _ => " " ++ budget_alert today self' c
                 end),
     {| tracker := self';
        disk := DataManager.save_data (expenses self') (budgets self')
                  (incomes self') (disk w) |}).
Proof. reflexivity. Qed.

Lemma budget_alert_cases today self c :
  let spent := month_to_date today c (expenses self) in
  match budgets self !! c with
  | Some limit =>
      if Money.gt spent limit
      then budget_alert today self c =
             "🚨 BUDGET ALERT: Spending in " ++ c
               ++ " exceeds budget of $" ++ Money.format limit
               ++ " by $" ++ Money.format (PrimFloat.sub spent limit) ++ "!"
      else budget_alert today self c = ""
  | None => budget_alert today self c = ""
  end.
Proof.
  unfold budget_alert. cbn zeta. rewrite get_category_spending_get.
  destruct (budgets self !! c) as [limit|]; [|done].
  by destruct (Money.gt _ limit).
Qed.

Lemma append_alert_inv (base tail : string) :
  base ++ tail = base → tail = "".
Proof.
  intros Heq. apply (String.app_inj base).
  rewrite Heq. clear.
  induction base as [|a base IH]; [done|].
  change (String a base = String a (base ++ "")). by rewrite <- IH.
Qed.

(** C2 (as the code has it). [add_expense] appends the expense with its
    category normalised and its tag stripped, leaves budgets and incomes as
    they were, and reports success; its message is the plain
    "Expense added successfully." exactly when the category has no limit or
    its month-to-date spend, the new expense included, does not exceed the
    limit, and otherwise carries the alert with the limit and the excess.
    When the clock is in August 2025, the limit of "Food" is 50 and the
    store holds no expense of "Food" dated in that month, adding
    (100, "food", "2025-08-01") reports an excess of $50.00. *)
Theorem add_expense_spec (today : datetime.date) (amount : float)
    (category date_str tag : string) (w : World) :
  let c := normalize category in
  let e := Expense.mk amount c date_str (Str.strip tag) in
  let r := (add_expense today amount category date_str tag w).1 in
  let w' := (add_expense today amount category date_str tag w).2 in
  let spent := month_to_date today c (expenses (tracker w')) in
  let exceeds :=
    ∃ limit, budgets (tracker w) !! c = Some limit ∧ Money.gt spent limit = true in
  expenses (tracker w') = (expenses (tracker w) ++ [e])%list
  ∧ budgets (tracker w') = budgets (tracker w)
  ∧ incomes (tracker w') = incomes (tracker w)
  ∧ r.1 = true
  ∧ (r.2 = "Expense added successfully." ↔ ¬ exceeds)
  ∧ (∀ limit, budgets (tracker w) !! c = Some limit → Money.gt spent limit = true →
       r.2 = "Expense added successfully. 🚨 BUDGET ALERT: Spending in " ++ c
               ++ " exceeds budget of $" ++ Money.format limit
               ++ " by $" ++ Money.format (PrimFloat.sub spent limit) ++ "!")
  ∧ (datetime.strftime_Ym today = "2025-08" →
     budgets (tracker w) !! "Food" = Some 50%float →
     (∀ x, x ∈ expenses (tracker w) →
        ¬ (this_month today (Expense.date x) ∧ Expense.category x = "Food")) →
     amount = 100%float → category = "food" → date_str = "2025-08-01" →
     r.2 = "Expense added successfully. 🚨 BUDGET ALERT: Spending in Food exceeds budget of $50.00 by $50.00!").
Proof.
  intros c e r w' spent exceeds.
  pose proof (add_expense_run today amount category date_str tag w) as Hrun.
  cbn zeta in Hrun. fold c e in Hrun.
  assert (Hgeneral :
    (r.2 = "Expense added successfully." ↔ ¬ exceeds)
    ∧ (∀ limit, budgets (tracker w) !! c = Some limit → Money.gt spent limit = true →
       r.2 = "Expense added successfully. 🚨 BUDGET ALERT: Spending in " ++ c
               ++ " exceeds budget of $" ++ Money.format limit
               ++ " by $" ++ Money.format (PrimFloat.sub spent limit) ++ "!")).
  { subst r exceeds spent w'. rewrite Hrun. clear Hrun.
    cbn [fst snd tracker expenses budgets].
    set (self' := {| expenses := _; budgets := _; incomes := _ |}).
    pose proof (budget_alert_cases today self' c) as Hcases.
    cbn zeta in Hcases. change (budgets self') with (budgets (tracker w)) in Hcases.
    change (expenses self') with (expenses (tracker w) ++ [e])%list in Hcases.
    destruct (budgets (tracker w) !! c) as [limit|] eqn:Hlimit.
    - destruct (Money.gt _ limit) eqn:Hgt; rewrite Hcases.
      + split.
        * split; [|intros []; eauto].
          intros Heq%append_alert_inv. discriminate Heq.
        * intros ? [= <-] _. reflexivity.
      + split; [|intros ? [= <-] ?; congruence].
        split; [|done]. intros _ (? & [= <-] & ?). congruence.
    - rewrite Hcases. split; [|done].
      split; [|done]. by intros _ (? & ? & _). }
  destruct Hgeneral as [Hplain Halert].
  split; [by subst w'; rewrite Hrun|].
  split; [by subst w'; rewrite Hrun|].
  split; [by subst w'; rewrite Hrun|].
  split; [by subst r; rewrite Hrun|].
  split; [exact Hplain|]. split; [exact Halert|].
  intros Hm Hfood Hnone -> Hcat ->.
  assert (c = "Food") as Hc by (subst c; rewrite Hcat; reflexivity).
  assert (spent = 100%float) as Hspent.
  { subst spent w'. rewrite Hrun. cbn [snd tracker expenses].
    unfold month_to_date. rewrite month_amounts_app.
    assert (month_amounts today c (expenses (tracker w)) = []) as ->.
    { unfold month_amounts. rewrite Hc.
      destruct (filter _ (expenses (tracker w))) as [|x l] eqn:Hf; [done|].
      assert (x ∈ x :: l) as Hx by left. rewrite <- Hf in Hx.
      apply list_elem_of_filter in Hx as [Hx1 Hx2]. by destruct (Hnone x). }
    unfold month_amounts. rewrite filter_cons_True; [reflexivity|].
    split; [|done]. unfold this_month. by rewrite Hm. }
  rewrite (Halert 50%float); rewrite ?Hc, ?Hspent; done.
Qed.

Lemma delete_category_tracker (category_name : string) (w : World) :
  let c := normalize category_name in
  let self := tracker w in
  tracker (delete_category category_name w).2 =
    {| expenses := filter (λ exp, Expense.category exp ≠ c) (expenses self);
       budgets := if bool_decide (is_Some (budgets self !! c))
                  then delete c (budgets self) else budgets self;
       incomes := incomes self |}.
Proof.
  unfold delete_category, mbind, M_bind, mret, M_ret. cbn.
  by destruct (_ && _).
Qed.

Lemma delete_category_flag (category_name : string) (w : World) :
  let c := normalize category_name in
  let self := tracker w in
  let deleted_count :=
    (Z.of_nat (length (expenses self))
     - Z.of_nat (length (filter (λ exp, Expense.category exp ≠ c) (expenses self))))%Z in
  (delete_category category_name w).1.1 =
    negb ((deleted_count =? 0)%Z && negb (bool_decide (is_Some (budgets self !! c)))).
Proof.
  unfold delete_category, mbind, M_bind, mret, M_ret.
  cbn -[Money.decimal Z.sub Z.of_nat].
  by destruct (_ && _).
Qed.

(** C4. [delete_category c] keeps exactly the expenses whose category is
    not the normalisation of [c], in their order, removes the budget of
    that category and no other, and leaves the incomes alone. It reports
    failure exactly when no expense had that category and no budget was
    set for it, and then the store is as it was. *)
Theorem delete_category_spec (category_name : string) (w : World) :
  let c := normalize category_name in
  let r := (delete_category category_name w).1 in
  let self := tracker w in
  let self' := tracker (delete_category category_name w).2 in
  expenses self' = filter (λ exp, Expense.category exp ≠ c) (expenses self)
  ∧ budgets self' = delete c (budgets self)
  ∧ (∀ k, k ≠ c → budgets self' !! k = budgets self !! k)
  ∧ incomes self' = incomes self
  ∧ (r.1 = false ↔
       (∀ exp, exp ∈ expenses self → Expense.category exp ≠ c)
       ∧ budgets self !! c = None)
  ∧ (r.1 = false → self' = self).
Proof.
  intros c r self self'.
  assert (budgets self' = delete c (budgets self)) as Hb.
  { subst self'. rewrite delete_category_tracker. cbn. fold c self.
    case_bool_decide as Hs; [done|].
    symmetry. apply delete_id. by apply eq_None_not_Some. }
  assert (r.1 = false ↔
           Forall (λ exp, Expense.category exp ≠ c) (expenses self)
           ∧ budgets self !! c = None) as Hr.
  { subst r. rewrite delete_category_flag. cbn zeta. fold c self.
    pose proof (filter_length_all (λ exp, Expense.category exp ≠ c) (expenses self))
      as Hlen.
    rewrite <- Hlen, eq_None_not_Some. clear Hlen.
    destruct (Z.eqb_spec
      (Z.of_nat (length (expenses self))
       - Z.of_nat (length (filter (λ exp, Expense.category exp ≠ c) (expenses self))))
      0) as [Hz|Hz]; case_bool_decide as Hs; cbn.
    - split; [intros [=]|]. by intros [_ ?].
    - split; [|done]. intros _. split; [lia|done].
    - split; [intros [=]|]. intros [? _]. lia.
    - split; [intros [=]|]. intros [? _]. lia. }
  pose proof (delete_category_tracker category_name w) as Ht.
  cbn zeta in Ht. fold c self self' in Ht.
  split; [by rewrite Ht|]. split; [done|].
  split; [by intros k Hk; rewrite Hb, lookup_delete_ne|].
  split; [by rewrite Ht|]. rewrite Hr, <- Forall_forall. split; [done|].
  intros [Hall Hnone].
  rewrite Ht. clear Ht Hb Hr. destruct self as [es bs ins]. cbn in *.
  rewrite (filter_all _ es Hall).
  case_bool_decide as Hs; [|done]. rewrite Hnone in Hs. by destruct Hs.
Qed.

(** C5. [remove_expense i] with [i] out of bounds ([i < 0] or [i] not
    below the number of expenses) reports failure with the message
    "Invalid expense index." and changes nothing, neither the store nor the
    file; with [i] in bounds it removes the record at position [i],
    keeping the records before and after it in their order, and reports
    success with the description of the removed record. [remove_income]
    does the same on the incomes. *)
Theorem remove_by_index_spec (index : Z) (w : World) :
  let self := tracker w in
  let i := Z.to_nat index in
  (((index < 0)%Z ∨ (Z.of_nat (length (expenses self)) ≤ index)%Z) →
     remove_expense index w = ((false, "Invalid expense index."), w))
  ∧ ((0 ≤ index < Z.of_nat (length (expenses self)))%Z →
     ∃ removed, expenses self !! i = Some removed
       ∧ (remove_expense index w).1 =
           (true, "Expense on " ++ Expense.date removed
                    ++ " for $" ++ Money.format (Expense.amount removed)
                    ++ " (" ++ Expense.category removed
                    ++ ") removed successfully.")
       ∧ tracker (remove_expense index w).2 =
           {| expenses := (take i (expenses self) ++ drop (S i) (expenses self))%list;
              budgets := budgets self; incomes := incomes self |})
  ∧ (((index < 0)%Z ∨ (Z.of_nat (length (incomes self)) ≤ index)%Z) →
     remove_income index w = ((false, "Invalid income index."), w))
  ∧ ((0 ≤ index < Z.of_nat (length (incomes self)))%Z →
     ∃ removed, incomes self !! i = Some removed
       ∧ (remove_income index w).1 =
           (true, "Income on " ++ Income.date removed
                    ++ " from " ++ Income.source removed
                    ++ " ($" ++ Money.format (Income.amount removed)
                    ++ ") removed successfully.")
       ∧ tracker (remove_income index w).2 =
           {| expenses := expenses self; budgets := budgets self;
              incomes := (take i (incomes self) ++ drop (S i) (incomes self))%list |}).
Proof.
  intros self i. repeat split.
  - intros Hout. unfold remove_expense, mbind, M_bind, get_self. fold self.
    destruct (Z.leb_spec 0 index), (Z.ltb_spec index (Z.of_nat (length (expenses self))));
      cbn; try done. lia.
  - intros Hin. unfold remove_expense, mbind, M_bind, get_self. fold self.
    destruct (Z.leb_spec 0 index), (Z.ltb_spec index (Z.of_nat (length (expenses self))));
      try lia. cbn. unfold pop. fold i.
    destruct (lookup_lt_is_Some_2 (expenses self) i) as [removed Hrem]; [lia|].
    exists removed. rewrite Hrem. cbn. by rewrite <- delete_take_drop.
  - intros Hout. unfold remove_income, mbind, M_bind, get_self. fold self.
    destruct (Z.leb_spec 0 index), (Z.ltb_spec index (Z.of_nat (length (incomes self))));
      cbn; try done. lia.
  - intros Hin. unfold remove_income, mbind, M_bind, get_self. fold self.
    destruct (Z.leb_spec 0 index), (Z.ltb_spec index (Z.of_nat (length (incomes self))));
      try lia. cbn. unfold pop. fold i.
    destruct (lookup_lt_is_Some_2 (incomes self) i) as [removed Hrem]; [lia|].
    exists removed. rewrite Hrem. cbn. by rewrite <- delete_take_drop.
Qed.

(** C6. After [add_expense], the summary lists the new expense under the
    index equal to the number of expenses there were before; removing the
    expense at that index succeeds, gives back the list of expenses there
    was before, and so the same total spend in [get_expenses_summary]. *)
Theorem add_then_remove_restores_total (today : datetime.date) (amount : float)
    (category date_str tag : string) (w : World) :
  let e := Expense.mk amount (normalize category) date_str (Str.strip tag) in
  let w1 := (add_expense today amount category date_str tag w).2 in
  let index := length (expenses (tracker w)) in
  let removal := remove_expense (Z.of_nat index) w1 in
  (index, e) ∈ (get_expenses_summary (tracker w1)).1
  ∧ removal.1.1 = true
  ∧ expenses (tracker removal.2) = expenses (tracker w)
  ∧ (get_expenses_summary (tracker removal.2)).2
      = (get_expenses_summary (tracker w)).2.
Proof.
  intros e w1 index removal.
  assert (expenses (tracker w1) = (expenses (tracker w) ++ [e])%list) as Hw1 by done.
  assert (expenses (tracker w1) !! index = Some e) as Hlook.
  { rewrite Hw1. apply list_lookup_middle. done. }
  assert (removal.1.1 = true ∧ expenses (tracker removal.2) = expenses (tracker w))
    as [Hok Hback].
  { subst removal. unfold remove_expense, mbind, M_bind, get_self.
    destruct (Z.leb_spec 0 (Z.of_nat index)); [|lia].
    destruct (Z.ltb_spec (Z.of_nat index) (Z.of_nat (length (expenses (tracker w1)))))
      as [_|Hge]; [|rewrite Hw1, length_app in Hge; cbn in Hge; lia].
    cbn [andb]. unfold pop. rewrite Nat2Z.id, Hlook. cbn. split; [done|].
    rewrite Hw1. subst index. rewrite delete_middle. apply app_nil_r. }
  split; [by apply get_expenses_summary_index|].
  split; [done|]. split; [done|].
  unfold get_expenses_summary. cbn. by rewrite Hback.
Qed.

End management_facts.

(** ** Persistence *)

Lemma expense_from_to_dict e : Expense.from_dict (Expense.to_dict e) = Ok e.
Proof. by destruct e. Qed.

Lemma income_from_to_dict i : Income.from_dict (Income.to_dict i) = Ok i.
Proof. by destruct i. Qed.

Lemma mapM_from_to_dict {A} (to_dict : A → json) (from_dict : json → result A) :
  (∀ x, from_dict (to_dict x) = Ok x) →
  ∀ l, mapM from_dict (to_dict <$> l) = Ok l.
Proof.
  intros Hinv l. induction l as [|x l IH]; [done|].
  cbn. rewrite Hinv. cbn. by rewrite IH.
Qed.

Lemma as_budgets_numbers (budgets : gmap string float) :
  Json.as_budgets (JObject (JNumber <$> budgets)) = Ok budgets.
Proof.
  unfold Json.as_budgets. rewrite bool_decide_eq_true_2.
  - f_equal. apply map_eq. intros k.
    rewrite lookup_omap, lookup_fmap. by destruct (budgets !! k).
  - intros k x. rewrite lookup_fmap.
    destruct (budgets !! k); intros [= <-]. by eexists.
Qed.

Section persistence_facts.
Context `{JsonModule}.

(** C8. When [json.load] reads back what [json.dump] wrote and the file
    can be written, [load_data] after [save_data] returns the expenses and
    the incomes that were saved, element for element in their order and
    with every field (the tag of an expense too), and a budget mapping
    with the same limit for every category. *)
Theorem save_then_load (es : list Expense.t) (bs : gmap string float)
    (ins : list Income.t) (disk : Disk) :
  (∀ doc, json_load (json_dump doc) = Some doc) →
  writable disk = true →
  DataManager.load_data (DataManager.save_data es bs ins disk)
    = {| data_expenses := es; data_budgets := bs; data_incomes := ins |}.
Proof.
  intros Hcodec Hw.
  unfold DataManager.save_data, DataManager.load_data, DataManager.read_document.
  rewrite Hw. cbn [contents]. rewrite Hcodec.
  unfold DataManager.expenses_of, DataManager.incomes_of, DataManager.budgets_of,
    DataManager.data_to_save.
  assert (∀ k v dflt (m : gmap string json), m !! k = Some v →
            Json.get (JObject m) k dflt = Ok v) as Hget.
  { intros k v dflt m Hk. unfold Json.get. by rewrite Hk. }
  rewrite (Hget "expenses" (JArray (Expense.to_dict <$> es))) by done.
  rewrite (Hget "incomes" (JArray (Income.to_dict <$> ins))) by done.
  rewrite (Hget "budgets" (JObject (JNumber <$> bs))) by done.
  cbn [mbind result_bind Json.as_list].
  rewrite (mapM_from_to_dict _ _ expense_from_to_dict).
  rewrite (mapM_from_to_dict _ _ income_from_to_dict).
  by rewrite as_budgets_numbers.
Qed.

(** C9. When the file is missing, or holds text that [json.load] rejects,
    [load_data] returns no expenses, no incomes and an empty budget
    mapping; it is a total function, so it surfaces no error. *)
Theorem load_data_starts_empty (disk : Disk) :
  contents disk = None
  ∨ (∃ txt, contents disk = Some txt ∧ json_load txt = None) →
  DataManager.load_data disk
    = {| data_expenses := []; data_budgets := ∅; data_incomes := [] |}.
Proof.
  unfold DataManager.load_data, DataManager.read_document.
  intros [->|(txt & -> & ->)]; reflexivity.
Qed.

End persistence_facts.

(** * Further properties *)

(** ** Normalisation *)

Lemma append_assoc (s1 s2 s3 : string) : (s1 ++ s2) ++ s3 = s1 ++ (s2 ++ s3).
Proof.
  induction s1 as [|c s1 IH]; [done|].
  change (String c ((s1 ++ s2) ++ s3) = String c (s1 ++ (s2 ++ s3))). by rewrite IH.
Qed.

Lemma append_empty_r (s : string) : s ++ "" = s.
Proof.
  induction s as [|c s IH]; [done|].
  change (String c (s ++ "") = String c s). by rewrite IH.
Qed.

Lemma rev_app_append (s1 s2 : string) :
  String.rev_app s1 s2 = String.rev s1 ++ s2.
Proof.
  unfold String.rev. revert s2.
  induction s1 as [|c s1 IH]; intros s2; [done|].
  cbn [String.rev_app]. rewrite IH, (IH (String c "")), append_assoc. done.
Qed.

Lemma rev_cons (c : ascii) (s : string) :
  String.rev (String c s) = String.rev s ++ String c "".
Proof. unfold String.rev at 1. cbn [String.rev_app]. apply rev_app_append. Qed.

Lemma rev_append (s1 s2 : string) :
  String.rev (s1 ++ s2) = String.rev s2 ++ String.rev s1.
Proof.
  induction s1 as [|c s1 IH]; [by rewrite append_empty_r|].
  change (String c s1 ++ s2) with (String c (s1 ++ s2)).
  by rewrite !rev_cons, IH, append_assoc.
Qed.

Lemma rev_involutive (s : string) : String.rev (String.rev s) = s.
Proof.
  induction s as [|c s IH]; [done|].
  by rewrite rev_cons, rev_append, IH.
Qed.

(** A text that is empty or begins with a character that is not a space. *)
Definition clean_head (s : string) : Prop :=
  match s with
  | String c _ => Str.isspace c = false
  | EmptyString => True
  end.

Lemma lstrip_clean_head (s : string) : clean_head (Str.lstrip s).
Proof.
  induction s as [|c s IH]; [done|]. cbn.
  by destruct (Str.isspace c) eqn:Hc.
Qed.

Lemma lstrip_id (s : string) : clean_head s → Str.lstrip s = s.
Proof. destruct s as [|c s]; [done|]. cbn. by intros ->. Qed.

Lemma lstrip_suffix (s : string) : ∃ w, s = w ++ Str.lstrip s.
Proof.
  induction s as [|c s [w IH]]; [by exists ""|]. cbn.
  destruct (Str.isspace c); [|by exists ""].
  exists (String c w). change (String c s = String c (w ++ Str.lstrip s)).
  by rewrite <- IH.
Qed.

Lemma rstrip_clean_head (s : string) : clean_head s → clean_head (Str.rstrip s).
Proof.
  intros Hs. unfold Str.rstrip.
  destruct (lstrip_suffix (String.rev s)) as [w Hw].
  apply (f_equal String.rev) in Hw. rewrite rev_involutive, rev_append in Hw.
  destruct (String.rev (Str.lstrip (String.rev s))) as [|c t]; [done|].
  by rewrite Hw in Hs.
Qed.

Lemma strip_clean (s : string) :
  clean_head (Str.strip s) ∧ clean_head (String.rev (Str.strip s)).
Proof.
  unfold Str.strip. split.
  - apply rstrip_clean_head, lstrip_clean_head.
  - unfold Str.rstrip. rewrite rev_involutive. apply lstrip_clean_head.
Qed.

Lemma strip_id (s : string) :
  clean_head s → clean_head (String.rev s) → Str.strip s = s.
Proof.
  intros Hs Hr. unfold Str.strip, Str.rstrip.
  by rewrite (lstrip_id s Hs), (lstrip_id _ Hr), rev_involutive.
Qed.

Lemma isspace_upper (c : ascii) : Str.isspace (Str.upper c) = Str.isspace c.
Proof. destruct c as [[] [] [] [] [] [] [] []]; reflexivity. Qed.

Lemma isspace_lower (c : ascii) : Str.isspace (Str.lower c) = Str.isspace c.
Proof. destruct c as [[] [] [] [] [] [] [] []]; reflexivity. Qed.

Lemma upper_upper (c : ascii) : Str.upper (Str.upper c) = Str.upper c.
Proof. destruct c as [[] [] [] [] [] [] [] []]; reflexivity. Qed.

Lemma lower_lower (c : ascii) : Str.lower (Str.lower c) = Str.lower c.
Proof. destruct c as [[] [] [] [] [] [] [] []]; reflexivity. Qed.

Lemma lower_all_idem (s : string) : Str.lower_all (Str.lower_all s) = Str.lower_all s.
Proof. induction s as [|c s IH]; [done|]. cbn. by rewrite lower_lower, IH. Qed.

Lemma capitalize_idem (s : string) :
  Str.capitalize (Str.capitalize s) = Str.capitalize s.
Proof. destruct s as [|c s]; [done|]. cbn. by rewrite upper_upper, lower_all_idem. Qed.

Lemma lower_all_append (s1 s2 : string) :
  Str.lower_all (s1 ++ s2) = Str.lower_all s1 ++ Str.lower_all s2.
Proof.
  induction s1 as [|c s1 IH]; [done|].
  change (String (Str.lower c) (Str.lower_all (s1 ++ s2))
          = String (Str.lower c) (Str.lower_all s1 ++ Str.lower_all s2)).
  by rewrite IH.
Qed.

Lemma lower_all_rev (s : string) :
  Str.lower_all (String.rev s) = String.rev (Str.lower_all s).
Proof.
  induction s as [|c s IH]; [done|]. cbn [Str.lower_all].
  by rewrite !rev_cons, lower_all_append, IH.
Qed.

Lemma capitalize_clean (s : string) :
  clean_head s → clean_head (String.rev s) →
  clean_head (Str.capitalize s) ∧ clean_head (String.rev (Str.capitalize s)).
Proof.
  destruct s as [|c s]; [done|]. intros Hc Hr. cbn in Hc. split.
  - cbn. by rewrite isspace_upper.
  - cbn [Str.capitalize]. rewrite rev_cons in *. rewrite <- lower_all_rev.
    destruct (String.rev s) as [|d t];
      cbv -[Str.isspace Str.upper Str.lower] in *.
    + by rewrite isspace_upper.
    + by rewrite isspace_lower.
Qed.

Lemma normalize_clean (s : string) :
  clean_head (normalize s) ∧ clean_head (String.rev (normalize s)).
Proof.
  unfold normalize. destruct (strip_clean s) as [Hh Hr].
  by apply capitalize_clean.
Qed.

Lemma normalize_capitalized (s : string) :
  Str.capitalize (normalize s) = normalize s.
Proof. apply capitalize_idem. Qed.

Lemma normalize_fixed (t : string) :
  clean_head t → clean_head (String.rev t) → Str.capitalize t = t →
  normalize t = t.
Proof. intros Hh Hr Hc. unfold normalize. by rewrite (strip_id _ Hh Hr). Qed.

(** X1. Normalising a category or a source twice is the same as normalising it
    once: what the store holds is a fixed point of [strip().capitalize()]. *)
Theorem normalize_idempotent (s : string) : normalize (normalize s) = normalize s.
Proof.
  destruct (normalize_clean s) as [Hh Hr].
  apply normalize_fixed; [done|done|]. apply normalize_capitalized.
Qed.

(** ** Listings: newest first, stable, indexed *)

(** [a] may stand before [b] in a listing that shows the newest dates first. *)
Definition newest_first {A} (key : A → string) (a b : A) : Prop :=
  String.le (key b) (key a).

Lemma compare_refl (s : string) : String.compare s s = Eq.
Proof.
  pose proof (String.compare_antisym s s) as H.
  by destruct (String.compare s s).
Qed.

Lemma ltb_irrefl (s : string) : String.ltb s s = false.
Proof. unfold String.ltb. by rewrite compare_refl. Qed.

Lemma ltb_le (a b : string) : String.ltb a b = true → String.le a b.
Proof.
  unfold String.ltb, String.le, String.leb.
  by destruct (String.compare a b).
Qed.

Lemma not_ltb_le (a b : string) : String.ltb a b = false → String.le b a.
Proof.
  unfold String.ltb, String.le, String.leb.
  rewrite (String.compare_antisym b a).
  by destruct (String.compare a b).
Qed.

Lemma insert_desc_HdRel {A} (key : A → string) (x y : A) (l : list A) :
  newest_first key y x → HdRel (newest_first key) y l →
  HdRel (newest_first key) y (insert_desc key x l).
Proof.
  intros Hyx Hyl. destruct l as [|z l]; cbn; [by constructor|].
  destruct (String.ltb (key x) (key z)); constructor; [|done].
  by inversion Hyl.
Qed.

Lemma insert_desc_Sorted {A} (key : A → string) (x : A) (l : list A) :
  Sorted (newest_first key) l → Sorted (newest_first key) (insert_desc key x l).
Proof.
  induction 1 as [|y l Hl IH Hy]; cbn; [by repeat constructor|].
  destruct (String.ltb (key x) (key y)) eqn:Hxy.
  - constructor; [done|]. apply insert_desc_HdRel; [|done]. by apply ltb_le.
  - constructor; [by constructor|]. constructor. by apply not_ltb_le.
Qed.

Lemma sorted_reverse_Sorted {A} (key : A → string) (l : list A) :
  Sorted (newest_first key) (sorted_reverse key l).
Proof.
  induction l as [|x l IH]; cbn; [constructor|]. by apply insert_desc_Sorted.
Qed.

Lemma insert_desc_filter {A} (key : A → string) (k : string) (x : A) (l : list A) :
  filter (λ a, key a = k) (insert_desc key x l) = filter (λ a, key a = k) (x :: l).
Proof.
  induction l as [|y l IH]; [done|]. cbn [insert_desc].
  destruct (String.ltb (key x) (key y)) eqn:Hxy; [|done].
  rewrite (filter_cons _ y), IH, !(filter_cons _ x), (filter_cons _ y).
  destruct (decide (key x = k)) as [Hx|Hx], (decide (key y = k)) as [Hy|Hy]; try done.
  rewrite Hx, Hy, ltb_irrefl in Hxy. done.
Qed.

Lemma sorted_reverse_stable {A} (key : A → string) (k : string) (l : list A) :
  filter (λ a, key a = k) (sorted_reverse key l) = filter (λ a, key a = k) l.
Proof.
  induction l as [|x l IH]; [done|]. cbn [sorted_reverse foldr].
  fold (sorted_reverse key l).
  by rewrite insert_desc_filter, !filter_cons, IH.
Qed.

Lemma imap_pair_fst {A} (l : list A) :
  (imap (λ i x, (i, x)) l).*1 = seq 0 (length l).
Proof.
  apply list_eq. intros i. rewrite list_lookup_fmap, list_lookup_imap.
  destruct (l !! i) as [x|] eqn:Hi; cbn; symmetry.
  - apply lookup_seq_lt. by apply lookup_lt_Some in Hi.
  - apply lookup_seq_ge. apply lookup_ge_None in Hi. lia.
Qed.

(** X2. Every position of the store is listed exactly once in a summary, next
    to the record it holds: the index shown beside a row is the one
    [remove_expense] (or [remove_income]) takes to delete that row. *)
Theorem summaries_index_the_store (self : ExpenseTracker) :
  let rows := (get_expenses_summary self).1 in
  let income_rows := (get_income_summary self).1 in
  rows.*1 ≡ₚ seq 0 (length (expenses self))
  ∧ (∀ i e, (i, e) ∈ rows → expenses self !! i = Some e)
  ∧ income_rows.*1 ≡ₚ seq 0 (length (incomes self))
  ∧ (∀ i inc, (i, inc) ∈ income_rows → incomes self !! i = Some inc).
Proof.
  unfold get_expenses_summary, get_income_summary. cbn.
  split; [|split; [|split]].
  - by rewrite sorted_reverse_Permutation, imap_pair_fst.
  - intros i e. rewrite sorted_reverse_Permutation, elem_of_lookup_imap.
    by intros (? & ? & [= -> ->] & ?).
  - by rewrite sorted_reverse_Permutation, imap_pair_fst.
  - intros i e. rewrite sorted_reverse_Permutation, elem_of_lookup_imap.
    by intros (? & ? & [= -> ->] & ?).
Qed.

(** X3. A summary lists its rows by date, newest first, and rows that share a
    date stay in the order of the store (increasing index). *)
Theorem summaries_newest_first (self : ExpenseTracker) :
  let rows := (get_expenses_summary self).1 in
  let income_rows := (get_income_summary self).1 in
  Sorted (newest_first (λ item, Expense.date item.2)) rows
  ∧ (∀ d, filter (λ item, Expense.date item.2 = d) rows
          = filter (λ item, Expense.date item.2 = d)
              (imap (λ i e, (i, e)) (expenses self)))
  ∧ Sorted (newest_first (λ item, Income.date item.2)) income_rows
  ∧ (∀ d, filter (λ item, Income.date item.2 = d) income_rows
          = filter (λ item, Income.date item.2 = d)
              (imap (λ i inc, (i, inc)) (incomes self))).
Proof.
  unfold get_expenses_summary, get_income_summary. cbn.
  split; [|split; [|split]].
  - apply sorted_reverse_Sorted.
  - intros d. apply (sorted_reverse_stable (λ item, Expense.date item.2)).
  - apply sorted_reverse_Sorted.
  - intros d. apply (sorted_reverse_stable (λ item, Income.date item.2)).
Qed.

(** X4. The combined log holds one entry for every expense and every income,
    newest date first; among the entries of one date the expenses come
    before the incomes, each kind in the order of the store. *)
Theorem combined_logs_spec (self : ExpenseTracker) :
  let logs := get_combined_logs self in
  let from_expenses := expense_for_log <$> expenses self in
  let from_incomes := income_for_log <$> incomes self in
  logs ≡ₚ (from_expenses ++ from_incomes)%list
  ∧ length logs = length (expenses self) + length (incomes self)
  ∧ Sorted (newest_first log_date) logs
  ∧ (∀ d, filter (λ x, log_date x = d) logs
          = (filter (λ x, log_date x = d) from_expenses
             ++ filter (λ x, log_date x = d) from_incomes)%list).
Proof.
  unfold get_combined_logs. cbn zeta.
  split; [apply sorted_reverse_Permutation|].
  split; [by rewrite sorted_reverse_Permutation, length_app, !length_fmap|].
  split; [apply sorted_reverse_Sorted|].
  intros d. by rewrite (sorted_reverse_stable log_date), filter_app.
Qed.

(** ** More on managing the store *)

Lemma elem_of_budget_report today self row :
  row ∈ get_budget_report today self ↔
  ∃ c, (is_Some (budgets self !! c)
        ∨ is_Some (_get_category_spending today self !! c))
       ∧ row = report_row self (_get_category_spending today self) c.
Proof.
  unfold get_budget_report. cbn zeta. rewrite list_elem_of_fmap.
  setoid_rewrite merge_sort_Permutation. setoid_rewrite elem_of_elements.
  setoid_rewrite elem_of_union. setoid_rewrite elem_of_dom.
  split; [intros (c & -> & Hc)|intros (c & Hc & ->)]; eauto.
Qed.

Section store_facts.
Context `{JsonModule}.

Lemma add_income_run amount source date_str (w : World) :
  add_income amount source date_str w =
    let self' := {| expenses := expenses (tracker w); budgets := budgets (tracker w);
                    incomes := (incomes (tracker w)
                                ++ [Income.mk amount (normalize source) date_str])%list |} in
    ((true, "Income added successfully from " ++ normalize source ++ "."),
     {| tracker := self';
        disk := DataManager.save_data (expenses self') (budgets self') (incomes self')
                  (disk w) |}).
Proof. reflexivity. Qed.

Lemma set_budget_run category amount (w : World) :
  set_budget category amount w =
    let self' := {| expenses := expenses (tracker w);
                    budgets := <[normalize category := amount]> (budgets (tracker w));
                    incomes := incomes (tracker w) |} in
    ((true, "Budget set: Monthly limit for " ++ normalize category
              ++ " is now $" ++ Money.format amount),
     {| tracker := self';
        disk := DataManager.save_data (expenses self') (budgets self') (incomes self')
                  (disk w) |}).
Proof. reflexivity. Qed.

Lemma remove_expense_world index (w : World) :
  (remove_expense index w).2 =
    if ((0 <=? index)%Z && (index <? Z.of_nat (length (expenses (tracker w))))%Z)
    then
      let self' := {| expenses := delete (Z.to_nat index) (expenses (tracker w));
                      budgets := budgets (tracker w); incomes := incomes (tracker w) |} in
      {| tracker := self';
         disk := DataManager.save_data (expenses self') (budgets self') (incomes self')
                   (disk w) |}
    else w.
Proof.
  unfold remove_expense, mbind, M_bind, get_self.
  destruct (Z.leb_spec 0 index), (Z.ltb_spec index (Z.of_nat (length (expenses (tracker w)))));
    cbn [andb]; try done.
  unfold pop.
  destruct (lookup_lt_is_Some_2 (expenses (tracker w)) (Z.to_nat index)) as [x ->];
    [lia|done].
Qed.

Lemma remove_income_world index (w : World) :
  (remove_income index w).2 =
    if ((0 <=? index)%Z && (index <? Z.of_nat (length (incomes (tracker w))))%Z)
    then
      let self' := {| expenses := expenses (tracker w); budgets := budgets (tracker w);
                      incomes := delete (Z.to_nat index) (incomes (tracker w)) |} in
      {| tracker := self';
         disk := DataManager.save_data (expenses self') (budgets self') (incomes self')
                   (disk w) |}
    else w.
Proof.
  unfold remove_income, mbind, M_bind, get_self.
  destruct (Z.leb_spec 0 index), (Z.ltb_spec index (Z.of_nat (length (incomes (tracker w)))));
    cbn [andb]; try done.
  unfold pop.
  destruct (lookup_lt_is_Some_2 (incomes (tracker w)) (Z.to_nat index)) as [x ->];
    [lia|done].
Qed.

Lemma delete_budget_run category_name (w : World) :
  delete_budget category_name w =
    let c := normalize category_name in
    match budgets (tracker w) !! c with
    | Some _ =>
        let self' := {| expenses := expenses (tracker w);
                        budgets := delete c (budgets (tracker w));
                        incomes := incomes (tracker w) |} in
        ((true, "Budget limit for '" ++ c ++ "' removed successfully."),
         {| tracker := self';
            disk := DataManager.save_data (expenses self') (budgets self')
                      (incomes self') (disk w) |})
    | None => ((false, "No budget found for category '" ++ c ++ "'."), w)
    end.
Proof.
  unfold delete_budget, mbind, M_bind, get_self. cbn zeta.
  by destruct (budgets (tracker w) !! normalize category_name).
Qed.

Lemma delete_category_world category_name (w : World) :
  (delete_category category_name w).2 =
    let c := normalize category_name in
    let self' :=
      {| expenses := filter (λ exp, Expense.category exp ≠ c) (expenses (tracker w));
         budgets := delete c (budgets (tracker w));
         incomes := incomes (tracker w) |} in
    {| tracker := self';
       disk := DataManager.save_data (expenses self') (budgets self') (incomes self')
                 (disk w) |}.
Proof.
  assert (∀ (bs : gmap string float) c,
            (if bool_decide (is_Some (bs !! c)) then delete c bs else bs) = delete c bs)
    as Hdel.
  { intros bs c. case_bool_decide as Hs; [done|].
    symmetry. apply delete_id. by apply eq_None_not_Some. }
  unfold delete_category, mbind, M_bind, mret, M_ret, get_self, put_self, _save.
  cbn -[Money.decimal Z.sub Z.of_nat]. rewrite !Hdel.
  by destruct (_ && _).
Qed.


(** X5. [delete_budget] fails, changing neither the store nor the file, exactly
    when the normalised category has no limit; otherwise it removes that
    limit and nothing else, so the expenses of the category stay, and a row
    the budget report still shows for it reads budget 0, "NO BUDGET SET". *)
Theorem delete_budget_spec (today : datetime.date) (category_name : string) (w : World) :
  let c := normalize category_name in
  let outcome := delete_budget category_name w in
  (budgets (tracker w) !! c = None →
     outcome = ((false, "No budget found for category '" ++ c ++ "'."), w))
  ∧ (is_Some (budgets (tracker w) !! c) →
     outcome.1 = (true, "Budget limit for '" ++ c ++ "' removed successfully.")
     ∧ budgets (tracker outcome.2) = delete c (budgets (tracker w))
     ∧ expenses (tracker outcome.2) = expenses (tracker w)
     ∧ incomes (tracker outcome.2) = incomes (tracker w)
     ∧ (∀ row, row ∈ get_budget_report today (tracker outcome.2) →
          row_category row = c →
          row_budget row = Money.zero ∧ row_status row = "NO BUDGET SET")).
Proof.
  intros c outcome. subst outcome. rewrite delete_budget_run. cbn zeta. fold c.
  split.
  - by intros ->.
  - intros [limit ->]. cbn [fst snd tracker expenses budgets incomes].
    do 4 (split; [done|]).
    intros row (c' & _ & ->)%elem_of_budget_report.
    set (self' := {| expenses := _; budgets := _; incomes := _ |}).
    destruct (report_row_fields self' (_get_category_spending today self') c')
      as (-> & -> & _ & _ & ->).
    intros ->. subst self'. cbn [budgets]. rewrite lookup_delete_eq. cbn [default].
    split; [done|].
    replace (Money.gt Money.zero Money.zero) with false by reflexivity.
    rewrite andb_false_r. reflexivity.
Qed.

(** X6. [set_budget] stores the limit under the normalised category, replacing
    an earlier limit and touching nothing else, and the budget report then
    has a row for that category with this budget and with the month-to-date
    spend of the category; a limit of 0 is shown as "NO BUDGET SET". *)
Theorem set_budget_reported (today : datetime.date) (category : string)
    (amount : float) (w : World) :
  let c := normalize category in
  let self' := tracker (set_budget category amount w).2 in
  budgets self' = <[c := amount]> (budgets (tracker w))
  ∧ expenses self' = expenses (tracker w)
  ∧ incomes self' = incomes (tracker w)
  ∧ ∃ row, row ∈ get_budget_report today self'
      ∧ row_category row = c
      ∧ row_budget row = amount
      ∧ row_spent row = month_to_date today c (expenses (tracker w))
      ∧ (row_status row = "NO BUDGET SET" ↔ Money.is_zero amount = true).
Proof.
  intros c self'. subst self'. rewrite set_budget_run. cbn zeta. fold c.
  cbn [snd tracker expenses budgets incomes].
  do 3 (split; [done|]).
  set (self' := {| expenses := _; budgets := _; incomes := _ |}).
  set (spending := _get_category_spending today self').
  exists (report_row self' spending c).
  destruct (report_row_fields self' spending c) as (Hc & Hb & Hs & _).
  pose proof (report_row_status self' spending c) as (_ & Hnone & _).
  assert (default Money.zero (budgets self' !! c) = amount) as Hamount.
  { subst self'. cbn [budgets]. by rewrite lookup_insert_eq. }
  rewrite Hamount in Hb, Hnone.
  split; [|split; [done|split; [done|split; [|done]]]].
  - apply elem_of_budget_report. exists c. split; [|done].
    left. subst self'. cbn [budgets]. rewrite lookup_insert_eq. by eexists.
  - rewrite Hs. subst spending. by rewrite get_category_spending_get.
Qed.

(** X7. After [delete_category] the budget report has no row for the category:
    neither a limit nor an expense of it is left. *)
Theorem delete_category_unreported (today : datetime.date) (category_name : string)
    (w : World) :
  let self' := tracker (delete_category category_name w).2 in
  ∀ row, row ∈ get_budget_report today self' →
    row_category row ≠ normalize category_name.
Proof.
  intros self' row (c & Hc & ->)%elem_of_budget_report.
  destruct (report_row_fields self' (_get_category_spending today self') c) as (-> & _).
  intros ->. subst self'. rewrite delete_category_world in Hc. cbn zeta in Hc.
  cbn [tracker budgets] in Hc. destruct Hc as [Hc|Hc].
  - rewrite lookup_delete_eq in Hc. by destruct Hc.
  - apply get_category_spending_dom in Hc as (e & He & _ & Hcat).
    cbn [expenses] in He. apply list_elem_of_filter in He as [Hne _]. done.
Qed.

(** X8. Removing the expense at position [i] moves every later expense one
    position down and leaves the earlier ones in place: an index read from
    a listing made before the removal points one record too far from [i]
    on. *)
Theorem remove_expense_shifts_indices (index : Z) (w : World) :
  (0 ≤ index < Z.of_nat (length (expenses (tracker w))))%Z →
  let es := expenses (tracker w) in
  let es' := expenses (tracker (remove_expense index w).2) in
  S (length es') = length es
  ∧ (∀ j : nat, (j < Z.to_nat index)%nat → es' !! j = es !! j)
  ∧ (∀ j : nat, (Z.to_nat index ≤ j)%nat → es' !! j = es !! S j).
Proof.
  intros Hin es es'. subst es'. rewrite remove_expense_world.
  destruct (Z.leb_spec 0 index); [|lia].
  destruct (Z.ltb_spec index (Z.of_nat (length (expenses (tracker w))))); [|lia].
  cbn [andb tracker expenses]. subst es. split; [|split].
  - rewrite length_delete; [|apply lookup_lt_is_Some_2; lia]. lia.
  - intros j Hj. by apply list_lookup_delete_lt.
  - intros j Hj. by apply list_lookup_delete_ge.
Qed.

End store_facts.

(** ** Invariants of the store *)

(** A call of one of the seven methods that change the store. *)
Inductive call :=
| AddExpense (amount : float) (category date_str tag : string)
| AddIncome (amount : float) (source date_str : string)
| SetBudget (category : string) (amount : float)
| RemoveExpense (index : Z)
| RemoveIncome (index : Z)
| DeleteBudget (category_name : string)
| DeleteCategory (category_name : string).


Section invariants.
Context `{JsonModule}.

Definition perform (today : datetime.date) (c : call) : M (bool * string) :=
  match c with
  | AddExpense amount category date_str tag =>
      add_expense today amount category date_str tag
  | AddIncome amount source date_str => add_income amount source date_str
  | SetBudget category amount => set_budget category amount
  | RemoveExpense index => remove_expense index
  | RemoveIncome index => remove_income index
  | DeleteBudget category_name => delete_budget category_name
  | DeleteCategory category_name => delete_category category_name
  end.

(** The world after a sequence of calls, made one after the other. *)
Definition perform_all (today : datetime.date) (cs : list call) (w : World) : World :=
  fold_left (λ w c, (perform today c w).2) cs w.

(** The file can be written and starting the program from it gives the
    store that is in memory. *)
Definition in_sync (w : World) : Prop :=
  writable (disk w) = true ∧ tracker (__init__ (disk w)) = tracker w.





Lemma load_document (d : Disk) es bs ins :
  DataManager.read_document d = Ok (DataManager.data_to_save es bs ins) →
  DataManager.load_data d
    = {| data_expenses := es; data_budgets := bs; data_incomes := ins |}.
Proof.
  intros Hdoc. unfold DataManager.load_data. rewrite Hdoc.
  unfold DataManager.expenses_of, DataManager.incomes_of, DataManager.budgets_of,
    DataManager.data_to_save.
  assert (∀ k v dflt (m : gmap string json), m !! k = Some v →
            Json.get (JObject m) k dflt = Ok v) as Hget.
  { intros k v dflt m Hk. unfold Json.get. by rewrite Hk. }
  rewrite (Hget "expenses" (JArray (Expense.to_dict <$> es))) by done.
  rewrite (Hget "incomes" (JArray (Income.to_dict <$> ins))) by done.
  rewrite (Hget "budgets" (JObject (JNumber <$> bs))) by done.
  cbn [mbind result_bind Json.as_list].
  rewrite (mapM_from_to_dict _ _ expense_from_to_dict).
  rewrite (mapM_from_to_dict _ _ income_from_to_dict).
  by rewrite as_budgets_numbers.
Qed.

Lemma init_after_save (d : Disk) es bs ins :
  (∀ doc, json_load (json_dump doc) = Some doc) →
  writable d = true →
  in_sync {| tracker := {| expenses := es; budgets := bs; incomes := ins |};
             disk := DataManager.save_data es bs ins d |}.
Proof.
  intros Hcodec Hw. unfold in_sync, __init__, DataManager.save_data.
  rewrite Hw. cbn [disk tracker writable]. split; [done|].
  rewrite (load_document _ es bs ins); [done|].
  unfold DataManager.read_document. cbn [contents]. by rewrite Hcodec.
Qed.

Lemma perform_keeps_in_sync today c (w : World) :
  (∀ doc, json_load (json_dump doc) = Some doc) →
  in_sync w → in_sync (perform today c w).2.
Proof.
  intros Hcodec Hsync. pose proof Hsync as [Hw _].
  destruct c as [amount category date_str tag|amount source date_str|category amount
                |index|index|category_name|category_name]; cbn [perform].
  - rewrite add_expense_run. by apply init_after_save.
  - rewrite add_income_run. by apply init_after_save.
  - rewrite set_budget_run. by apply init_after_save.
  - rewrite remove_expense_world. destruct (_ && _); [|done].
    by apply init_after_save.
  - rewrite remove_income_world. destruct (_ && _); [|done].
    by apply init_after_save.
  - rewrite delete_budget_run. cbn zeta.
    destruct (budgets (tracker w) !! normalize category_name); [|done].
    by apply init_after_save.
  - rewrite delete_category_world. by apply init_after_save.
Qed.

(** X10. Every call leaves the file holding what the store holds: when
    [json.load] reads back what [json.dump] writes and the file can be
    written, then after any sequence of calls, starting the program again
    from the file gives the store that was in memory. *)
Theorem store_survives_restart (today : datetime.date) (cs : list call) (w : World) :
  (∀ doc, json_load (json_dump doc) = Some doc) →
  in_sync w →
  in_sync (perform_all today cs w).
Proof.
  intros Hcodec. unfold perform_all. revert w.
  induction cs as [|c cs IH]; intros w Hw; [done|].
  cbn [fold_left]. apply IH. by apply perform_keeps_in_sync.
Qed.

(** X11. A call that reports success writes the file, and so does every
    [delete_category], the one that finds nothing and reports failure too:
    after such a call on a writable file, the file and the store agree,
    whatever the file held before. *)
Theorem saving_call_writes_the_store (today : datetime.date) (c : call) (w : World) :
  (∀ doc, json_load (json_dump doc) = Some doc) →
  writable (disk w) = true →
  (perform today c w).1.1 = true ∨ (∃ category_name, c = DeleteCategory category_name) →
  in_sync (perform today c w).2.
Proof.
  intros Hcodec Hw Hsaves.
  destruct c as [amount category date_str tag|amount source date_str|category amount
                |index|index|category_name|category_name]; cbn [perform] in *.
  - rewrite add_expense_run. by apply init_after_save.
  - rewrite add_income_run. by apply init_after_save.
  - rewrite set_budget_run. by apply init_after_save.
  - destruct Hsaves as [Hok|[? [=]]]. revert Hok.
    rewrite remove_expense_world.
    unfold remove_expense, mbind, M_bind, get_self.
    destruct (_ && _); [|by intros [=]]. intros _. by apply init_after_save.
  - destruct Hsaves as [Hok|[? [=]]]. revert Hok.
    rewrite remove_income_world.
    unfold remove_income, mbind, M_bind, get_self.
    destruct (_ && _); [|by intros [=]]. intros _. by apply init_after_save.
  - destruct Hsaves as [Hok|[? [=]]]. revert Hok.
    rewrite delete_budget_run. cbn zeta.
    destruct (budgets (tracker w) !! normalize category_name); [|by intros [=]].
    intros _. by apply init_after_save.
  - rewrite delete_category_world. by apply init_after_save.
Qed.

End invariants.

(** ** Periods *)

Lemma prefix_append (a b s : string) :
  String.prefix (a ++ b) s = true → String.prefix a s = true.
Proof.
  revert s. induction a as [|c a IH]; intros s; [by destruct s|].
  destruct s as [|c' s]; [done|].
  change (String c a ++ b) with (String c (a ++ b)). cbn.
  destruct (ascii_dec c c'); [apply IH|done].
Qed.

Lemma startswith_month_year today (d : string) :
  Str.startswith d (datetime.strftime_Ym today) = true →
  Str.startswith d (datetime.strftime_Y today) = true.
Proof. unfold Str.startswith, datetime.strftime_Ym. apply prefix_append. Qed.

(** X12. The records of the current month are among the records of the current
    year: filtering the year's records by month gives exactly what
    filtering all the records by month gives, and that is a part of the
    year's records in the same order. *)
Theorem filter_month_within_year {A} `{Dated A} (today : datetime.date)
    (records : list A) :
  let this_year := _filter_transactions today records "year" in
  let this_month := _filter_transactions today records "month" in
  _filter_transactions today this_year "month" = this_month
  ∧ sublist this_month this_year.
Proof.
  intros this_year this_month.
  assert (_filter_transactions today this_year "month" = this_month) as Heq.
  { subst this_year this_month. unfold _filter_transactions. cbn.
    rewrite list_filter_filter. apply list_filter_iff. intros r.
    rewrite !Is_true_true. split; [by intros [? _]|].
    intros Hm. split; [done|]. by apply startswith_month_year. }
  split; [done|]. rewrite <- Heq.
  unfold _filter_transactions at 1. cbn. apply sublist_filter.
Qed.

(** ** Decoding records *)

Lemma mapM_raise {A} (from_dict : json → result A) (js : list json) (j : json) :
  j ∈ js → (∀ x, from_dict j ≠ Ok x) → ∀ xs, mapM from_dict js ≠ Ok xs.
Proof.
  intros Hj Hbad. induction js as [|j' js IH]; [by inversion Hj|].
  intros xs. cbn. destruct (from_dict j') as [x|e] eqn:Hj'; [|done]. cbn.
  apply elem_of_cons in Hj as [->|Hj]; [by destruct (Hbad x)|].
  destruct (mapM from_dict js) as [xs'|e] eqn:Hjs; [|done].
  by destruct (IH Hj xs').
Qed.

(** X13. [Expense.from_dict] and [Income.from_dict] read a dictionary that has
    the required keys, whatever other keys it has; the tag of an expense is
    optional and read as the empty text when absent; a dictionary that
    lacks a required key is not decoded. *)
Theorem from_dict_keys (m : gmap string json) :
  (∀ a c d g,
     m !! "amount" = Some (JNumber a) → m !! "category" = Some (JString c) →
     m !! "date" = Some (JString d) →
     m !! "tag" = Some (JString g) ∨ (m !! "tag" = None ∧ g = "") →
     Expense.from_dict (JObject m) = Ok (Expense.mk a c d g))
  ∧ (∀ a s d,
     m !! "amount" = Some (JNumber a) → m !! "source" = Some (JString s) →
     m !! "date" = Some (JString d) →
     Income.from_dict (JObject m) = Ok (Income.mk a s d))
  ∧ (m !! "amount" = None ∨ m !! "category" = None ∨ m !! "date" = None →
     ∀ e, Expense.from_dict (JObject m) ≠ Ok e)
  ∧ (m !! "amount" = None ∨ m !! "source" = None ∨ m !! "date" = None →
     ∀ i, Income.from_dict (JObject m) ≠ Ok i).
Proof.
  unfold Expense.from_dict, Income.from_dict, Json.subscript, Json.get.
  split; [|split; [|split]].
  - intros a c d g -> -> -> [->|[-> ->]]; reflexivity.
  - intros a s d -> -> ->. reflexivity.
  - intros Hmiss e.
    destruct (m !! "amount") as [[]|]; cbn; try done;
      destruct (m !! "category") as [[]|]; cbn; try done;
      destruct (m !! "date") as [[]|]; cbn; try done.
    by destruct Hmiss as [?|[?|?]].
  - intros Hmiss i.
    destruct (m !! "amount") as [[]|]; cbn; try done;
      destruct (m !! "source") as [[]|]; cbn; try done;
      destruct (m !! "date") as [[]|]; cbn; try done.
    by destruct Hmiss as [?|[?|?]].
Qed.

Lemma income_missing_key (m : gmap string json) :
  m !! "amount" = None ∨ m !! "source" = None ∨ m !! "date" = None →
  ∀ i, Income.from_dict (JObject m) ≠ Ok i.
Proof.
  unfold Income.from_dict, Json.subscript. intros Hmiss i.
  destruct (m !! "amount") as [[]|]; cbn; try done;
    destruct (m !! "source") as [[]|]; cbn; try done;
    destruct (m !! "date") as [[]|]; cbn; try done.
  by destruct Hmiss as [?|[?|?]].
Qed.

Lemma json_get_found (m : gmap string json) (k : string) (v dflt : json) :
  m !! k = Some v → Json.get (JObject m) k dflt = Ok v.
Proof. intros Hk. unfold Json.get. by rewrite Hk. Qed.

Section loading_facts.
Context `{JsonModule}.

(** X14. [load_data] keeps what it had read when a later part of the document
    fails: if the expenses decode and one entry of the incomes lacks a
    required key, it returns the expenses with no income and no budget at
    all, whatever incomes and budgets the document holds. *)
Theorem load_data_keeps_what_it_read (d : Disk) (m bad : gmap string json)
    (es : list Expense.t) (js : list json) :
  DataManager.read_document d = Ok (JObject m) →
  m !! "expenses" = Some (JArray (Expense.to_dict <$> es)) →
  m !! "incomes" = Some (JArray js) →
  JObject bad ∈ js →
  bad !! "amount" = None ∨ bad !! "source" = None ∨ bad !! "date" = None →
  DataManager.load_data d
    = {| data_expenses := es; data_budgets := ∅; data_incomes := [] |}.
Proof.
  intros Hdoc Hes Hjs Hbad Hmiss.
  unfold DataManager.load_data. rewrite Hdoc.
  unfold DataManager.expenses_of, DataManager.incomes_of.
  rewrite (json_get_found _ _ _ _ Hes), (json_get_found _ _ _ _ Hjs).
  cbn [mbind result_bind Json.as_list].
  rewrite (mapM_from_to_dict _ _ expense_from_to_dict).
  pose proof (mapM_raise Income.from_dict js (JObject bad) Hbad
                (income_missing_key bad Hmiss)) as Hraise.
  destruct (mapM Income.from_dict js) as [ins|e]; [by destruct (Hraise ins)|done].
Qed.

End loading_facts.

(** ** Calls one after the other *)

Section sequences.
Context `{JsonModule}.

(** X15. A second [delete_category] of the same category finds nothing: it
    reports failure and leaves the store as the first one left it. *)
Theorem delete_category_twice (category_name : string) (w : World) :
  let w1 := (delete_category category_name w).2 in
  (delete_category category_name w1).1.1 = false
  ∧ tracker (delete_category category_name w1).2 = tracker w1.
Proof.
  intros w1.
  assert (budgets (tracker w1) !! normalize category_name = None) as Hb.
  { subst w1. rewrite delete_category_world. cbn. apply lookup_delete_eq. }
  assert (Forall (λ exp, Expense.category exp ≠ normalize category_name)
            (expenses (tracker w1))) as He.
  { subst w1. rewrite delete_category_world. cbn.
    apply Forall_forall. by intros exp [? _]%list_elem_of_filter. }
  split.
  - rewrite delete_category_flag. cbn zeta.
    rewrite (filter_all _ _ He), Hb, Z.sub_diag.
    rewrite bool_decide_eq_false_2; [done|]. by intros [? ?].
  - rewrite delete_category_world. cbn zeta. cbn [tracker].
    rewrite (filter_all _ _ He), (delete_id _ _ Hb). by destruct (tracker w1).
Qed.

(** X16. Setting a limit for a category that had none and deleting it again
    gives back the store there was. *)
Theorem set_then_delete_budget (category : string) (amount : float) (w : World) :
  budgets (tracker w) !! normalize category = None →
  let w1 := (set_budget category amount w).2 in
  (delete_budget category w1).1.1 = true
  ∧ tracker (delete_budget category w1).2 = tracker w.
Proof.
  intros Hnone w1. subst w1. rewrite set_budget_run. cbn zeta. cbn [snd].
  rewrite delete_budget_run. cbn zeta. cbn [tracker budgets expenses incomes].
  rewrite lookup_insert_eq. cbn [fst snd tracker]. split; [done|].
  rewrite delete_insert_eq, (delete_id _ _ Hnone). by destruct (tracker w).
Qed.

(** X17. After [add_income] the income summary lists the new income, its source
    normalised, under the index equal to the number of incomes there were;
    removing the income at that index gives back the store there was. *)
Theorem add_income_then_remove (amount : float) (source date_str : string) (w : World) :
  let inc := Income.mk amount (normalize source) date_str in
  let w1 := (add_income amount source date_str w).2 in
  let index := length (incomes (tracker w)) in
  (index, inc) ∈ (get_income_summary (tracker w1)).1
  ∧ (remove_income (Z.of_nat index) w1).1.1 = true
  ∧ tracker (remove_income (Z.of_nat index) w1).2 = tracker w.
Proof.
  intros inc w1 index.
  assert (incomes (tracker w1) = (incomes (tracker w) ++ [inc])%list) as Hw1 by done.
  assert (incomes (tracker w1) !! index = Some inc) as Hlook.
  { rewrite Hw1. by apply list_lookup_middle. }
  assert ((0 <=? Z.of_nat index)%Z
          && (Z.of_nat index <? Z.of_nat (length (incomes (tracker w1))))%Z = true)
    as Hin.
  { rewrite Hw1, length_app. cbn. apply andb_true_iff. split.
    - apply Z.leb_le. lia.
    - apply Z.ltb_lt. subst index. lia. }
  split; [|split].
  - unfold get_income_summary. cbn.
    rewrite sorted_reverse_Permutation. by apply elem_of_lookup_imap_2.
  - unfold remove_income, mbind, M_bind, get_self. rewrite Hin.
    unfold pop. by rewrite Nat2Z.id, Hlook.
  - rewrite remove_income_world, Hin. cbn zeta. cbn [tracker].
    rewrite Nat2Z.id, Hw1. subst index. rewrite delete_middle, app_nil_r.
    subst w1. rewrite add_income_run. cbn. by destruct (tracker w).
Qed.


End sequences.

(** ** Charts *)

Lemma defaultdict_add_keys k a (d : list (string * float)) c :
  c ∈ (defaultdict_add k a d).*1 ↔ c = k ∨ c ∈ d.*1.
Proof.
  induction d as [|[k' v'] d IH]; cbn.
  - rewrite list_elem_of_singleton. split; [by left|]. intros [?|?%elem_of_nil]; done.
  - destruct (String.eqb_spec k' k) as [->|Hk]; cbn.
    + rewrite elem_of_cons. tauto.
    + rewrite !elem_of_cons, IH. tauto.
Qed.

Lemma defaultdict_add_NoDup k a (d : list (string * float)) :
  NoDup d.*1 → NoDup (defaultdict_add k a d).*1.
Proof.
  induction d as [|[k' v'] d IH]; cbn; [by intros _; apply NoDup_singleton|].
  intros [Hk' Hd]%NoDup_cons.
  destruct (String.eqb_spec k' k) as [->|Hk]; cbn; apply NoDup_cons.
  - done.
  - split; [|by apply IH]. rewrite defaultdict_add_keys. intros [?|?]; done.
Qed.

Lemma defaultdict_add_elem k a (d : list (string * float)) c v :
  NoDup d.*1 → (c, v) ∈ defaultdict_add k a d →
  (c ≠ k ∧ (c, v) ∈ d)
  ∨ (c = k ∧ ((∃ v0, (k, v0) ∈ d ∧ v = PrimFloat.add v0 a)
              ∨ ((k ∉ d.*1) ∧ v = PrimFloat.add Money.zero a))).
Proof.
  induction d as [|[k' v'] d IH]; cbn.
  - intros _ [= -> ->]%list_elem_of_singleton. right. split; [done|]. right.
    split; [apply not_elem_of_nil|done].
  - intros [Hk' Hd]%NoDup_cons.
    destruct (String.eqb_spec k' k) as [->|Hk].
    + intros [[= -> ->]|Hin]%elem_of_cons.
      * right. split; [done|]. left. exists v'. split; [left|done].
      * left. split; [|by right]. intros ->. apply Hk'.
        apply list_elem_of_fmap. by exists (k, v).
    + intros [[= -> ->]|Hin]%elem_of_cons.
      * left. split; [done|left].
      * destruct (IH Hd Hin) as [[? ?]|[-> [(v0 & ? & ?)|[? ?]]]].
        -- left. split; [done|by right].
        -- right. split; [done|]. left. exists v0. split; [by right|done].
        -- right. split; [done|]. right. split; [|done].
           cbn. rewrite not_elem_of_cons. by split.
Qed.

Lemma chart_fold_spec (es : list Expense.t) :
  let d := fold_left
             (λ d exp, defaultdict_add (Expense.category exp) (Expense.amount exp) d)
             es [] in
  NoDup d.*1
  ∧ (∀ c, c ∈ d.*1 ↔ ∃ e, e ∈ es ∧ Expense.category e = c)
  ∧ (∀ c v, (c, v) ∈ d →
       v = Money.sum (Expense.amount <$> filter (λ e, Expense.category e = c) es)).
Proof.
  induction es as [|e es (Hnd & Hkeys & Hvals)] using rev_ind; cbn zeta.
  - cbn. split; [constructor|]. split; [|by intros ? ? ?%elem_of_nil].
    intros c. split; [by intros ?%elem_of_nil|by intros (? & ?%elem_of_nil & _)].
  - rewrite fold_left_app. cbn [fold_left].
    set (d := fold_left _ es []) in *. cbn zeta in Hnd, Hkeys, Hvals.
    split; [by apply defaultdict_add_NoDup|]. split.
    + intros c. rewrite defaultdict_add_keys, Hkeys.
      setoid_rewrite elem_of_app. setoid_rewrite list_elem_of_singleton.
      split.
      * intros [->|(e' & ? & ?)]; eauto.
      * intros (e' & [?| ->] & ?); eauto.
    + intros c v Hin. rewrite filter_app, fmap_app.
      unfold Money.sum. rewrite fold_left_app.
      destruct (defaultdict_add_elem _ _ _ _ _ Hnd Hin)
        as [[Hne Hd]|[-> [(v0 & Hd & ->)|[Hnew ->]]]].
      * rewrite filter_cons_False, filter_nil by done. cbn. by apply Hvals.
      * rewrite filter_cons_True, filter_nil by done. cbn.
        f_equal. by apply Hvals.
      * rewrite filter_cons_True, filter_nil by done. cbn. f_equal.
        destruct (filter _ es) as [|e' l] eqn:Hf; [done|].
        destruct Hnew. apply Hkeys. exists e'.
        assert (e' ∈ e' :: l) as He' by left. rewrite <- Hf in He'.
        by apply list_elem_of_filter in He' as [? ?].
Qed.

(** X19. The category chart has one label for each category among the expenses
    of the period, each once, and beside each label the sum, in the order
    of the store, of the amounts of those expenses in that category. *)
Theorem category_chart_spec (today : datetime.date) (self : ExpenseTracker)
    (time_filter : string) :
  let chart := get_category_chart_data today self time_filter in
  let shown := _filter_transactions today (expenses self) time_filter in
  length (labels chart) = length (data chart)
  ∧ NoDup (labels chart)
  ∧ (∀ c, c ∈ labels chart ↔ ∃ e, e ∈ shown ∧ Expense.category e = c)
  ∧ (∀ (i : nat) c, labels chart !! i = Some c →
       data chart !! i =
         Some (Money.sum (Expense.amount <$>
                 filter (λ e, Expense.category e = c) shown))).
Proof.
  intros chart shown. subst chart. unfold get_category_chart_data. cbn zeta.
  fold shown. cbn [labels data].
  destruct (chart_fold_spec shown) as (Hnd & Hkeys & Hvals). cbn zeta in *.
  set (d := fold_left _ shown []) in *.
  split; [by rewrite !length_fmap|]. split; [done|]. split; [done|].
  intros i c. rewrite !list_lookup_fmap.
  destruct (d !! i) as [[c' v]|] eqn:Hi; [|done]. cbn. intros [= ->].
  f_equal. apply Hvals. by apply list_elem_of_lookup_2 in Hi.
Qed.

(** X20. For the period 'month' the category chart shows, for each category, the
    very number the budget report shows as spent: both add up the same
    expenses in the same order. *)
Theorem month_chart_matches_report (today : datetime.date) (self : ExpenseTracker) :
  let chart := get_category_chart_data today self "month" in
  ∀ (i : nat) c, labels chart !! i = Some c →
    ∃ row, row ∈ get_budget_report today self
      ∧ row_category row = c
      ∧ data chart !! i = Some (row_spent row).
Proof.
  intros chart i c. subst chart. unfold get_category_chart_data. cbn zeta.
  cbn [labels data].
  set (shown := _filter_transactions today (expenses self) "month").
  destruct (chart_fold_spec shown) as (_ & Hkeys & Hvals). cbn zeta in *.
  set (d := fold_left _ shown []) in *.
  rewrite !list_lookup_fmap.
  destruct (d !! i) as [[c' v]|] eqn:Hi; [|done]. cbn. intros [= ->].
  apply list_elem_of_lookup_2 in Hi.
  set (spending := _get_category_spending today self).
  exists (report_row self spending c).
  destruct (report_row_fields self spending c) as (Hc & _ & Hs & _).
  assert (∃ e, e ∈ expenses self ∧ this_month today (Expense.date e)
               ∧ Expense.category e = c) as (e & He & Hm & Hcat).
  { destruct (proj1 (Hkeys c)) as (e & He & Hcat).
    - apply list_elem_of_fmap. by exists (c, v).
    - subst shown. unfold _filter_transactions in He. cbn in He.
      apply list_elem_of_filter in He as [Hm He]. exists e.
      split; [done|]. split; [|done].
      apply this_month_startswith. by apply Is_true_true. }
  split; [|split; [done|]].
  - apply elem_of_budget_report. exists c. split; [|done]. right.
    apply get_category_spending_dom. eauto.
  - rewrite Hs. subst spending. rewrite get_category_spending_get.
    f_equal. rewrite (Hvals c v Hi). unfold month_to_date, month_amounts.
    f_equal. f_equal. subst shown. unfold _filter_transactions. cbn.
    rewrite list_filter_filter. apply list_filter_iff. intros x.
    rewrite Is_true_true, <- this_month_startswith. tauto.
Qed.

Lemma fold_spend_in_month_lookup (es : list Expense.t) (acc : gmap string float)
    (k : string) :
  fold_left spend_in_month es acc !! k =
    match Expense.amount <$> filter (λ e, Str.slice_to 7 (Expense.date e) = k) es with
    | [] => acc !! k
    | xs => Some (fold_left PrimFloat.add xs (default Money.zero (acc !! k)))
    end.
Proof.
  revert acc. induction es as [|e es IH]; intros acc; [done|].
  cbn [fold_left]. rewrite IH. clear IH. unfold spend_in_month.
  destruct (decide (Str.slice_to 7 (Expense.date e) = k)) as [Hk|Hk].
  - rewrite filter_cons_True by done. subst k.
    rewrite lookup_insert_eq. cbn.
    by destruct (Expense.amount <$> filter _ es).
  - rewrite filter_cons_False by done. by rewrite lookup_insert_ne.
Qed.

(** X21. The monthly trend has one point for each month (the first seven
    characters of the date) among the expenses of the period, the months in
    ascending order; the value of a point is the sum, in the order of the
    store, of the amounts of the expenses of that month, and its label is
    the month as [strftime('%b %Y')] writes it, or the seven characters
    themselves when they are not a year and a month. *)
Theorem monthly_trend_spec (today : datetime.date) (month_label : string → option string)
    (self : ExpenseTracker) (time_filter : string) :
  let trend := get_monthly_trend_data today month_label self time_filter in
  let shown := _filter_transactions today (expenses self) time_filter in
  ∃ months,
    Sorted String.le months
    ∧ NoDup months
    ∧ (∀ k, k ∈ months ↔ ∃ e, e ∈ shown ∧ Str.slice_to 7 (Expense.date e) = k)
    ∧ labels trend = (λ k, default k (month_label k)) <$> months
    ∧ data trend =
        (λ k, Money.sum (Expense.amount <$>
                filter (λ e, Str.slice_to 7 (Expense.date e) = k) shown)) <$> months.
Proof.
  intros trend shown. subst trend. unfold get_monthly_trend_data. cbn zeta.
  fold shown. cbn [labels data].
  set (monthly_spending := fold_left spend_in_month shown ∅).
  exists (merge_sort String.le (elements (dom monthly_spending : gset string))).
  split; [apply Sorted_merge_sort; apply _|].
  split; [rewrite merge_sort_Permutation; apply NoDup_elements|].
  split; [|split; [done|]].
  - intros k. rewrite merge_sort_Permutation, elem_of_elements, elem_of_dom.
    subst monthly_spending. rewrite fold_spend_in_month_lookup, lookup_empty.
    destruct (filter _ shown) as [|e l] eqn:Hf; cbn.
    + split; [by intros [? ?]|]. intros (e & He & Hk). exfalso.
      by eapply (filter_nil_not_elem_of _ _ e); [exact Hf| |exact He].
    + split; [intros _|by eauto].
      assert (e ∈ e :: l) as He by left. rewrite <- Hf in He.
      apply list_elem_of_filter in He as [? ?]. eauto.
  - apply list_fmap_ext. intros _ k _. subst monthly_spending.
    rewrite fold_spend_in_month_lookup, lookup_empty.
    by destruct (Expense.amount <$> filter _ shown).
Qed.

(** ** A file that cannot be written *)

Section unwritable.
Context `{JsonModule}.



End unwritable.

(** * Worked instances *)

Section instances.
#[local] Existing Instance Scenario.parsed_text.

Example format_fifty : Money.format 50%float = "50.00".
Proof. vm_compute. reflexivity. Qed.

Example format_grouping : Money.format 1234567.5%float = "1,234,567.50".
Proof. vm_compute. reflexivity. Qed.

Example format_tie_to_even : Money.format 0.125%float = "0.12".
Proof. vm_compute. reflexivity. Qed.

Example normalize_food : normalize "  fOOD " = "Food".
Proof. reflexivity. Qed.

(** August 2025, a limit of $50 for "Food", nothing spent yet: the alert of
    [add_expense_spec] reports an excess of $50.00. *)
Lemma add_expense_witness :
  (add_expense Scenario.august 100 "food" "2025-08-01" "" Scenario.food_budget).1.2
    = "Expense added successfully. 🚨 BUDGET ALERT: Spending in Food exceeds budget of $50.00 by $50.00!".
Proof.
  pose proof (add_expense_spec Scenario.august 100 "food" "2025-08-01" ""
                Scenario.food_budget) as (_ & _ & _ & _ & _ & _ & Hexample).
  apply Hexample; try reflexivity.
  intros x Hx. inversion Hx.
Defined.

(** The same request in November 2026: the expense is dated in another month
    than the clock's, the month-to-date spend of "Food" stays 0, and the
    message carries no alert. *)
Lemma add_expense_alert_counterexample :
  budgets (tracker Scenario.food_budget) !! "Food" = Some 50%float
  ∧ (add_expense Scenario.november 100 "food" "2025-08-01" "" Scenario.food_budget).1
      = (true, "Expense added successfully.").
Proof. split; vm_compute; reflexivity. Qed.

Lemma calculate_net_savings_witness :
  datetime.strftime_Ym Scenario.august = "2025-08"
  ∧ calculate_net_savings Scenario.august Scenario.salary_and_rent
      = (3000, 750, 2250)%float.
Proof.
  split; [reflexivity|].
  apply (proj2 (calculate_net_savings_spec Scenario.august Scenario.salary_and_rent));
    [reflexivity|reflexivity|].
  exists "". reflexivity.
Defined.

Lemma delete_category_witness :
  (delete_category "travel" Scenario.sample).1.1 = false
  ∧ tracker (delete_category "travel" Scenario.sample).2 = tracker Scenario.sample.
Proof.
  pose proof (delete_category_spec "travel" Scenario.sample)
    as (_ & _ & _ & _ & Hfail & Hsame).
  assert ((delete_category "travel" Scenario.sample).1.1 = false) as Hflag.
  { apply Hfail. split; [|reflexivity].
    intros exp Hexp. vm_compute in Hexp.
    inversion Hexp as [|? ? ? Hexp']; subst; [discriminate|].
    inversion Hexp' as [|? ? ? Hexp'']; subst; [discriminate|].
    inversion Hexp''. }
  split; [exact Hflag|]. exact (Hsame Hflag).
Defined.

Lemma remove_by_index_witness :
  remove_expense 2 Scenario.sample = ((false, "Invalid expense index."), Scenario.sample)
  ∧ (remove_expense 1 Scenario.sample).1
      = (true, "Expense on 2025-08-15 for $55.50 (Food) removed successfully.").
Proof.
  pose proof (remove_by_index_spec 2 Scenario.sample) as (Hout & _).
  pose proof (remove_by_index_spec 1 Scenario.sample) as (_ & Hin & _).
  split.
  - apply Hout. right. vm_compute. discriminate.
  - destruct Hin as (removed & Hlook & Hmsg & _).
    + split; [done|]. reflexivity.
    + rewrite Hmsg. injection Hlook as <-. vm_compute. reflexivity.
Defined.

Lemma filter_transactions_other_witness :
  _filter_transactions Scenario.november (expenses (tracker Scenario.sample)) "week"
    = expenses (tracker Scenario.sample).
Proof. apply filter_transactions_other; discriminate. Defined.

Lemma save_then_load_witness :
  DataManager.load_data
    (DataManager.save_data [Scenario.rent; Scenario.dining] {[ "Food" := 150%float ]}
       [Scenario.salary] Scenario.garbled_file)
  = {| data_expenses := [Scenario.rent; Scenario.dining];
       data_budgets := {[ "Food" := 150%float ]};
       data_incomes := [Scenario.salary] |}.
Proof. apply save_then_load; [intros doc|]; reflexivity. Defined.

Lemma load_data_starts_empty_witness :
  DataManager.load_data Scenario.no_file
    = {| data_expenses := []; data_budgets := ∅; data_incomes := [] |}
  ∧ DataManager.load_data Scenario.garbled_file
    = {| data_expenses := []; data_budgets := ∅; data_incomes := [] |}.
Proof.
  split; apply load_data_starts_empty.
  - left. reflexivity.
  - right. exists None. split; reflexivity.
Defined.

Lemma remove_expense_shifts_indices_witness :
  expenses (tracker (remove_expense 0 Scenario.sample).2) !! 0 = Some Scenario.dining.
Proof.
  destruct (remove_expense_shifts_indices 0 Scenario.sample) as (_ & _ & Hlater).
  - cbn. lia.
  - rewrite Hlater; [reflexivity|]. cbn. lia.
Defined.


Lemma store_survives_restart_witness :
  in_sync
    (perform_all Scenario.august
       [AddExpense 750 "Rent" "2025-08-01" ""; AddIncome 3000 "Salary" "2025-08-01";
        RemoveExpense 5; SetBudget "Food" 150]
       (__init__ Scenario.no_file)).
Proof.
  apply store_survives_restart; [intros doc; reflexivity|].
  split; reflexivity.
Defined.

(** The file is missing and the store is not empty; a [delete_category]
    that finds nothing still writes the store to the file. *)
Lemma saving_call_writes_the_store_witness :
  (delete_category "travel" Scenario.sample).1.1 = false
  ∧ in_sync (perform Scenario.august (DeleteCategory "travel") Scenario.sample).2.
Proof.
  split; [vm_compute; reflexivity|].
  apply saving_call_writes_the_store; [intros doc; reflexivity|reflexivity|].
  right. by eexists.
Defined.

Lemma load_data_keeps_what_it_read_witness :
  DataManager.load_data
    (@Build_Disk Scenario.parsed_text
       (Some (Some (JObject
          {[ "expenses" := JArray [Expense.to_dict Scenario.rent];
             "incomes" := JArray [JObject {[ "amount" := JNumber 3000 ]}];
             "budgets" := JObject {[ "Food" := JNumber 150 ]} ]})))
       true)
  = {| data_expenses := [Scenario.rent]; data_budgets := ∅; data_incomes := [] |}.
Proof.
  eapply (load_data_keeps_what_it_read _ _ {[ "amount" := JNumber 3000 ]}
            [Scenario.rent]).
  - reflexivity.
  - reflexivity.
  - reflexivity.
  - left.
  - right. left. reflexivity.
Defined.

Lemma set_then_delete_budget_witness :
  tracker (delete_budget "travel" (set_budget " TRAVEL" 300 Scenario.sample).2).2
    = tracker Scenario.sample.
Proof.
  apply (set_then_delete_budget " TRAVEL" 300 Scenario.sample). reflexivity.
Defined.


Lemma month_chart_matches_report_witness :
  ∃ row,
    row ∈ get_budget_report Scenario.august (tracker Scenario.sample)
    ∧ row_category row = "Rent"
    ∧ data (get_category_chart_data Scenario.august (tracker Scenario.sample) "month")
        !! 0 = Some (row_spent row).
Proof.
  apply (month_chart_matches_report Scenario.august (tracker Scenario.sample) 0 "Rent").
  reflexivity.
Defined.

Lemma delete_category_unreported_witness :
  let self' := tracker (delete_category "rent" Scenario.sample).2 in
  let row := report_row self' (_get_category_spending Scenario.august self') "Food" in
  row ∈ get_budget_report Scenario.august self' ∧ row_category row ≠ "Rent".
Proof.
  intros self' row.
  assert (row ∈ get_budget_report Scenario.august self') as Hrow.
  { apply elem_of_budget_report. exists "Food". split; [|reflexivity].
    left. by eexists. }
  split; [exact Hrow|].
  exact (delete_category_unreported Scenario.august "rent" Scenario.sample row Hrow).
Defined.


End instances.
